(** * manage.py: command dispatch and logging configuration

    A shallow embedding of [manage.py], the entry point of the
    'PyPi Portal' Flask and Celery application.  The module parses its
    command line with docopt into the mapping [OPTIONS], registers the
    functions decorated with [@command], configures logging, validates the
    port flag and runs the chosen function.

    Python objects are modelled as follows: the dict [OPTIONS] as a
    [gmap string Value]; [sys.exit] and raised exceptions as outcomes of a
    small state-and-error monad over the process state [World]; calls into
    Flask, Tornado, Celery and SQLAlchemy as entries of a call log. *)

From Stdlib Require Import ZArith List String Ascii Bool Lia DecimalString.
From stdpp Require Import base option gmap strings list.

Local Open Scope Z_scope.
Local Open Scope string_scope.

(** ** Python values held by [OPTIONS] *)

Inductive Value :=
| VNone
| VBool (b : bool)
| VStr (s : string).

(** Truth value of an object as tested by [if x:]. *)
Definition truthy (v : Value) : bool :=
  match v with
  | VNone => false
  | VBool b => b
  | VStr s => match s with EmptyString => false | _ => true end
  end.

(** ** Exceptions and outcomes *)

Inductive Exn :=
| KeyError (msg : string)
| AttributeError (msg : string)
| TypeError (msg : string)
| ValueError (msg : string).

Inductive Outcome (A : Type) :=
| Ret (a : A)
| SysExit (code : Z)
| Raised (e : Exn).
Arguments Ret {A} a.
Arguments SysExit {A} code.
Arguments Raised {A} e.

(** Exit status of the interpreter: 0 when the script runs to its end, the
    argument of [sys.exit], 1 for an uncaught exception. *)
Definition exit_code {A} (o : Outcome A) : Z :=
  match o with
  | Ret _ => 0
  | SysExit c => c
  | Raised _ => 1
  end.

(** ** The file system as [os.path.isdir] and [os.access] see it *)

(** [fs_files] are the regular files that exist. *)
Record FS := {
  fs_isdir : string -> bool;
  fs_writable : string -> bool;
  fs_files : list string
}.

(** ** The logging package *)

Module logging.
Definition FATAL : Z := 50.
Definition ERROR : Z := 40.
Definition WARN : Z := 30.
Definition INFO : Z := 20.
Definition DEBUG : Z := 10.
Definition NOTSET : Z := 0.
End logging.

(** Broken-down local time of a record, as [time.localtime(record.created)]. *)
Record struct_time := {
  tm_mon : Z; tm_mday : Z; tm_hour : Z; tm_min : Z; tm_sec : Z
}.

Record LogRecord := {
  levelno : Z;
  created : struct_time;
  msecs : Z;
  process : Z;
  filename : string;
  lineno : Z;
  message : string
}.

(** ** Strings *)

(** A byte in ['0'..'9']. *)
Definition is_digit (c : ascii) : bool :=
  ((48 <=? Z.of_nat (nat_of_ascii c)) && (Z.of_nat (nat_of_ascii c) <=? 57))%Z.

Fixpoint all_digits (s : string) : bool :=
  match s with
  | EmptyString => true
  | String c r => is_digit c && all_digits r
  end.

(** [str.isdigit()] of a byte string: at least one character and every
    character a decimal digit. *)
Definition isdigit (s : string) : bool :=
  match s with
  | EmptyString => false
  | String _ _ => all_digits s
  end.

(** The characters [str.strip()] removes. *)
Definition is_space (c : ascii) : bool :=
  let n := Z.of_nat (nat_of_ascii c) in
  ((n =? 32) || ((9 <=? n) && (n <=? 13)))%Z.

Fixpoint lstrip (s : list ascii) : list ascii :=
  match s with
  | c :: r => if is_space c then lstrip r else s
  | [] => []
  end.

Definition strip (s : list ascii) : list ascii :=
  rev (lstrip (rev (lstrip s))).

Fixpoint digits_value (acc : Z) (s : list ascii) : option Z :=
  match s with
  | [] => Some acc
  | c :: r =>
      if is_digit c
      then digits_value (10 * acc + (Z.of_nat (nat_of_ascii c) - 48)) r
      else None
  end.

(** [int(s)] for a byte string in base ten: surrounding white space and one
    sign are allowed, at least one digit is required. *)
Definition python_int (s : string) : Exn + Z :=
  let bad := inl (ValueError ("invalid literal for int() with base 10: " ++ s)) in
  let unsigned (ds : list ascii) : option Z :=
    match ds with [] => None | _ => digits_value 0 ds end in
  match strip (list_ascii_of_string s) with
  | c :: ds =>
      if Ascii.eqb c "+" then
        match unsigned ds with Some n => inr n | None => bad end
      else if Ascii.eqb c "-" then
        match unsigned ds with Some n => inr (- n)%Z | None => bad end
      else
        match unsigned (c :: ds) with Some n => inr n | None => bad end
  | [] => bad
  end.

(** Decimal rendering of an integer, as [%d] and [str.format] produce. *)
Definition dec (z : Z) : string := NilZero.string_of_int (Z.to_int z).

(** Two digits, zero padded, as [strftime] renders a field. *)
Definition dec2 (z : Z) : string :=
  if (z <? 10)%Z then "0" ++ dec z else dec z.

(** ** Formatting of log records *)

(** An attribute of a record, as [record.__dict__] holds it. *)
Inductive attr :=
| AStr (s : string)
| AInt (z : Z).

(** [time.strftime(datefmt, t)] for the directives of a month-to-second
    time stamp; any other character is copied. *)
Fixpoint strftime (f : string) (t : struct_time) : string :=
  match f with
  | String "%" (String c rest) =>
      (if Ascii.eqb c "m" then dec2 (tm_mon t)
       else if Ascii.eqb c "d" then dec2 (tm_mday t)
       else if Ascii.eqb c "H" then dec2 (tm_hour t)
       else if Ascii.eqb c "M" then dec2 (tm_min t)
       else if Ascii.eqb c "S" then dec2 (tm_sec t)
       else String "%" (String c EmptyString)) ++ strftime rest t
  | String c rest => String c (strftime rest t)
  | EmptyString => EmptyString
  end.

(** Splits [name)rest] into [name] and [rest]. *)
Fixpoint split_paren (s : string) : option (string * string) :=
  match s with
  | EmptyString => None
  | String c r =>
      if Ascii.eqb c ")" then Some (EmptyString, r)
      else match split_paren r with
           | Some (n, r') => Some (String c n, r')
           | None => None
           end
  end.

Definition render (conv : ascii) (a : attr) : Exn + string :=
  if Ascii.eqb conv "s" then
    inr (match a with AStr s => s | AInt z => dec z end)
  else if Ascii.eqb conv "d" then
    match a with
    | AInt z => inr (dec z)
    | AStr _ => inl (TypeError "%d format: a number is required, not str")
    end
  else inl (ValueError "unsupported format character").

(** [f % d] for a format made of text and [%(name)s] / [%(name)d]
    directives.  [fuel] bounds the number of steps; the length of the
    format plus one always suffices. *)
Fixpoint percent_format (fuel : nat) (f : string)
    (d : string -> option attr) : Exn + string :=
  match fuel with
  | O => inl (ValueError "format too long")
  | S fuel' =>
      match f with
      | EmptyString => inr EmptyString
      | String "%" (String "(" rest) =>
          match split_paren rest with
          | Some (name, String conv rest') =>
              match d name with
              | None => inl (KeyError name)
              | Some a =>
                  match render conv a with
                  | inl e => inl e
                  | inr s =>
                      match percent_format fuel' rest' d with
                      | inl e => inl e
                      | inr t => inr (s ++ t)
                      end
                  end
              end
          | _ => inl (ValueError "incomplete format key")
          end
      | String "%" (String "%" rest) =>
          match percent_format fuel' rest d with
          | inl e => inl e
          | inr t => inr (String "%" t)
          end
      | String "%" _ => inl (ValueError "unsupported format character")
      | String c rest =>
          match percent_format fuel' rest d with
          | inl e => inl e
          | inr t => inr (String c t)
          end
      end
  end.

(** A [CustomFormatter(fmt, datefmt)] instance. *)
Record CustomFormatter := { fmt : string; datefmt : string }.

(** [record.__dict__] once [levelletter], [asctime] and [message] are set. *)
Definition record_dict (r : LogRecord) (levelletter : option string)
    (asctime : string) (name : string) : option attr :=
  if String.eqb name "levelletter" then AStr <$> levelletter
  else if String.eqb name "asctime" then Some (AStr asctime)
  else if String.eqb name "msecs" then Some (AInt (msecs r))
  else if String.eqb name "process" then Some (AInt (process r))
  else if String.eqb name "filename" then Some (AStr (filename r))
  else if String.eqb name "lineno" then Some (AInt (lineno r))
  else if String.eqb name "levelno" then Some (AInt (levelno r))
  else if String.eqb name "message" then Some (AStr (message r))
  else None.

(** [logging.Formatter.format]: the time stamp is rendered with [datefmt]
    and the format string is interpolated with the record's attributes. *)
Definition Formatter_format (self : CustomFormatter) (r : LogRecord)
    (levelletter : option string) : Exn + string :=
  let asctime := strftime (datefmt self) (created r) in
  percent_format (S (String.length (fmt self))) (fmt self)
                 (record_dict r levelletter asctime).

Definition LEVEL_MAP : gmap Z string :=
  {[ logging.FATAL := "F"; logging.ERROR := "E"; logging.WARN := "W";
     logging.INFO := "I"; logging.DEBUG := "D" ]}.

(** [CustomFormatter.format]: [LEVEL_MAP[record.levelno]] raises KeyError
    for a level that is not a key. *)
Definition CustomFormatter_format (self : CustomFormatter) (r : LogRecord)
    : Exn + string :=
  match LEVEL_MAP !! levelno r with
  | None => inl (KeyError (dec (levelno r)))
  | Some letter => Formatter_format self r (Some letter)
  end.

(** Where a handler writes: [StreamHandler(sys.stdout)] or a file. *)
Inductive Sink :=
| Console
| File (path : string).

Record Handler := {
  h_sink : Sink;
  h_level : Z;
  h_formatter : option CustomFormatter
}.

(** ** Calls into the frameworks *)

(** One entry per call into Flask, Tornado, Celery, Flask-Script and the
    database handle that a function of the module makes, with the
    arguments it passes; [celery_Logging_setup_assign] is the assignment
    [Logging._setup = True].  The calls are taken to return. *)
Inductive Call :=
| get_config_call (cls : string)
| create_app_call (config : string) (no_sql : bool)
| app_run_call (host : string) (port : Z)
| wsgi_container_call
| web_application_call (fsh_folder static_folder : string)
| http_server_call
| http_server_bind_call (port : Value)
| http_server_start_call (num_processes : Z)
| ioloop_start_call
| celery_Logging_setup_assign
| celery_main_call (args : list string)
| app_context_enter
| app_context_exit
| app_context_push
| shell_run_call
| db_create_all_call.

(** Disposition of SIGINT. *)
Inductive SigintHandler :=
| SigDefault
| SigExit (code : Z).

(** ** Process state *)

(** [w_out] is what has been written so far, to [sys.stdout] (sink
    [Console]) or to a file; [w_handle_errors] are the exceptions that
    [Handler.handleError] swallowed; [w_calls] the calls into the
    frameworks, in order. *)
Record World := {
  w_fs : FS;
  w_out : list (Sink * string);
  w_handle_errors : list Exn;
  w_root_level : Z;
  w_root_handlers : list Handler;
  w_sigint : SigintHandler;
  w_calls : list Call
}.

(** A fresh interpreter: the root logger is at WARNING with no handler. *)
Definition initial_world (fs : FS) : World :=
  {| w_fs := fs; w_out := []; w_handle_errors := [];
     w_root_level := logging.WARN; w_root_handlers := [];
     w_sigint := SigDefault; w_calls := [] |}.

Definition set_out (f : list (Sink * string) -> list (Sink * string))
    (w : World) : World :=
  {| w_fs := w_fs w; w_out := f (w_out w);
     w_handle_errors := w_handle_errors w;
     w_root_level := w_root_level w; w_root_handlers := w_root_handlers w;
     w_sigint := w_sigint w; w_calls := w_calls w |}.

Definition set_handle_errors (f : list Exn -> list Exn) (w : World) : World :=
  {| w_fs := w_fs w; w_out := w_out w;
     w_handle_errors := f (w_handle_errors w);
     w_root_level := w_root_level w; w_root_handlers := w_root_handlers w;
     w_sigint := w_sigint w; w_calls := w_calls w |}.

Definition set_root_level (l : Z) (w : World) : World :=
  {| w_fs := w_fs w; w_out := w_out w;
     w_handle_errors := w_handle_errors w;
     w_root_level := l; w_root_handlers := w_root_handlers w;
     w_sigint := w_sigint w; w_calls := w_calls w |}.

Definition set_root_handlers (f : list Handler -> list Handler)
    (w : World) : World :=
  {| w_fs := w_fs w; w_out := w_out w;
     w_handle_errors := w_handle_errors w;
     w_root_level := w_root_level w; w_root_handlers := f (w_root_handlers w);
     w_sigint := w_sigint w; w_calls := w_calls w |}.

Definition set_sigint (h : SigintHandler) (w : World) : World :=
  {| w_fs := w_fs w; w_out := w_out w;
     w_handle_errors := w_handle_errors w;
     w_root_level := w_root_level w; w_root_handlers := w_root_handlers w;
     w_sigint := h; w_calls := w_calls w |}.

Definition set_calls (f : list Call -> list Call) (w : World) : World :=
  {| w_fs := w_fs w; w_out := w_out w;
     w_handle_errors := w_handle_errors w;
     w_root_level := w_root_level w; w_root_handlers := w_root_handlers w;
     w_sigint := w_sigint w; w_calls := f (w_calls w) |}.

(** The lines that reached the console, oldest first. *)
Definition console_lines (w : World) : list string :=
  omap (fun e => match fst e with Console => Some (snd e) | File _ => None end)
       (w_out w).

(** The lines written to files, with the file each went to. *)
Definition file_lines (w : World) : list (string * string) :=
  omap (fun e => match fst e with Console => None | File p => Some (p, snd e) end)
       (w_out w).

(** ** State and error monad *)

Definition M (A : Type) : Type := World -> Outcome A * World.

Definition ret {A} (a : A) : M A := fun w => (Ret a, w).

Definition bind {A B} (m : M A) (k : A -> M B) : M B :=
  fun w =>
    match m w with
    | (Ret a, w') => k a w'
    | (SysExit c, w') => (SysExit c, w')
    | (Raised e, w') => (Raised e, w')
    end.

Notation "'let*' x ':=' m 'in' k" := (bind m (fun x => k))
  (at level 10, x name, m at level 100, k at level 200).
Notation "m '>>' k" := (bind m (fun _ => k))
  (at level 199, right associativity).

Definition sys_exit {A} (code : Z) : M A := fun w => (SysExit code, w).
Definition raise {A} (e : Exn) : M A := fun w => (Raised e, w).
Definition lift {A} (r : Exn + A) : M A :=
  match r with inl e => raise e | inr a => ret a end.

(** [print(line)] writes to [sys.stdout]. *)
Definition print (line : string) : M unit :=
  fun w => (Ret tt, set_out (fun o => (o ++ [(Console, line)])%list) w).

Definition call (c : Call) : M unit :=
  fun w => (Ret tt, set_calls (fun cs => (cs ++ [c])%list) w).

(** ** OPTIONS *)

(** [OPTIONS[key]]. *)
Definition getitem (OPTIONS : gmap string Value) (key : string) : M Value :=
  match OPTIONS !! key with
  | Some v => ret v
  | None => raise (KeyError key)
  end.

(** The commands of the usage text. *)
Definition commands : list string :=
  ["devserver"; "tornadoserver"; "celerydev"; "celerybeat"; "celeryworker";
   "shell"; "create_all"].

(** [OPTIONS = docopt(__doc__)] is evaluated first, when the module is
    loaded; docopt is a library, so the mapping is an input of the model.
    [docopt_result] is the mapping docopt builds from the usage text for a
    command line that names [cmd]: every command and every option is a
    key; the commands and switches are booleans, [--log_dir] is [None]
    unless given, [--port] defaults to ['5000']. *)
Definition docopt_result (cmd : string) (port : option string)
    (log_dir : option string) (config_prod : bool) : gmap string Value :=
  <["--config_prod" := VBool config_prod]>
  (<["--log_dir" := match log_dir with Some d => VStr d | None => VNone end]>
  (<["--port" := VStr (default "5000" port)]>
  (<["--help" := VBool false]>
  (<["-h" := VBool false]>
  (list_to_map
     (map (fun c => (c, VBool (bool_decide (c = cmd)))) commands)))))).


(** [str(v)], as ['{}'.format(v)] renders a value. *)
Definition str_of_bool (b : bool) : string := if b then "True" else "False".

Definition str_of_value (v : Value) : string :=
  match v with
  | VNone => "None"
  | VBool b => str_of_bool b
  | VStr s => s
  end.

(** A value used where a path is required. *)
Definition as_path (v : Value) : M string :=
  match v with
  | VStr s => ret s
  | _ => raise (TypeError "coercing to Unicode: need string or buffer")
  end.

(** [v.isdigit()]. *)
Definition Value_isdigit (v : Value) : M bool :=
  match v with
  | VStr s => ret (isdigit s)
  | VNone => raise (AttributeError "'NoneType' object has no attribute 'isdigit'")
  | VBool _ => raise (AttributeError "'bool' object has no attribute 'isdigit'")
  end.

(** [int(v)]. *)
Definition Value_int (v : Value) : M Z :=
  match v with
  | VStr s => lift (python_int s)
  | VBool b => ret (if b then 1 else 0)%Z
  | VNone => raise (TypeError "int() argument must be a string or a number, not 'NoneType'")
  end.

(** ** Delivery of log records *)

Definition os_path_isdir (d : string) : M bool :=
  fun w => (Ret (fs_isdir (w_fs w) d), w).

(** [os.access(d, os.W_OK)]. *)
Definition os_access_W_OK (d : string) : M bool :=
  fun w => (Ret (fs_writable (w_fs w) d), w).

(** [Handler.format]: the handler's formatter, or the default one, which
    renders the message alone. *)
Definition Handler_format (h : Handler) (r : LogRecord) : Exn + string :=
  match h_formatter h with
  | Some f => CustomFormatter_format f r
  | None => inr (message r)
  end.

(** [StreamHandler.emit]: the formatted line is written to the handler's
    stream; an exception raised while formatting is passed to
    [handleError] and nothing is written. *)
Definition emit (h : Handler) (r : LogRecord) : M unit :=
  fun w =>
    match Handler_format h r with
    | inr line => (Ret tt, set_out (fun o => (o ++ [(h_sink h, line)])%list) w)
    | inl e => (Ret tt, set_handle_errors (fun l => (l ++ [e])%list) w)
    end.

(** [Logger.callHandlers]: every handler whose level the record reaches. *)
Fixpoint callHandlers (hs : list Handler) (r : LogRecord) : M unit :=
  match hs with
  | [] => ret tt
  | h :: hs' =>
      (if (h_level h <=? levelno r)%Z then emit h r else ret tt) >>
      callHandlers hs' r
  end.

(** A record logged through a logger without level or handlers of its own:
    the root logger's level decides and the root's handlers are called. *)
Definition log_record (r : LogRecord) : M unit :=
  fun w =>
    if (w_root_level w <=? levelno r)%Z
    then callHandlers (w_root_handlers w) r w
    else (Ret tt, w).

Definition root_setLevel (l : Z) : M unit :=
  fun w => (Ret tt, set_root_level l w).

Definition root_addHandler (h : Handler) : M unit :=
  fun w => (Ret tt, set_root_handlers (fun hs => (hs ++ [h])%list) w).

(** ** setup_logging *)

(** The formatter [setup_logging] builds from its [fmt] and [datefmt]. *)
Definition glog_formatter : CustomFormatter :=
  {| fmt := "%(levelletter)s%(asctime)s.%(msecs)d %(process)d %(filename)s:%(lineno)d] %(message)s";
     datefmt := "%m%d %H:%M:%S" |}.

(** The [StreamHandler(sys.stdout)] it installs, once its level and
    formatter are set. *)
Definition console_handler (log_to_disk : bool) : Handler :=
  {| h_sink := Console;
     h_level := if log_to_disk then logging.ERROR else logging.DEBUG;
     h_formatter := Some glog_formatter |}.

Definition setup_logging (OPTIONS : gmap string Value) : M unit :=
  let* log_dir := getitem OPTIONS "--log_dir" in
  let* log_to_disk :=
    (if truthy log_dir then
       let* d := as_path log_dir in
       let* isdir := os_path_isdir d in
       (if negb isdir then
          print ("ERROR: Directory " ++ str_of_value log_dir ++ " does not exist.") >>
          sys_exit 1
        else ret tt) >>
       let* writable := os_access_W_OK d in
       (if negb writable then
          print ("ERROR: No permissions to write to directory "
                 ++ str_of_value log_dir ++ ".") >>
          sys_exit 1
        else ret tt) >>
       ret true
     else ret false) in
  root_setLevel logging.DEBUG >>
  root_addHandler (console_handler log_to_disk).

(** ** The application and its environment *)

(** What this module reads from the object [create_app] returns. *)
Record App := {
  app_config_DEBUG : bool;
  app_static_folder : string;
  app_blueprints : gmap string string
}.

(** What the module takes from outside: the clock and the process id that
    stamp log records, the Flask version and the application factory. *)
Record Env := {
  env_localtime : struct_time;
  env_msecs : Z;
  env_pid : Z;
  flask_version : string;
  env_create_app : string -> bool -> App
}.

(** A function object: its [__name__] and what calling it does. *)
Record Func := { func_name : string; func_body : M unit }.

(** The attributes set on the function object [command]. *)
Record CommandAttrs := { chosen : option Func }.

Section ManagePy.

Variable OPTIONS : gmap string Value.
Variable env : Env.

(** [log.info(msg)] at line [line] of manage.py. *)
Definition log_info (line : Z) (msg : string) : M unit :=
  log_record {| levelno := logging.INFO; created := env_localtime env;
                msecs := env_msecs env; process := env_pid env;
                filename := "manage.py"; lineno := line; message := msg |}.

Definition log_messages (app : App) (port : Value) (fsh_folder : string)
    : M unit :=
  log_info 108 ("Server is running at http://0.0.0.0:" ++ str_of_value port ++ "/") >>
  log_info 109 ("Flask version: " ++ flask_version env) >>
  log_info 110 ("DEBUG: " ++ str_of_bool (app_config_DEBUG app)) >>
  log_info 111 ("FLASK_STATICS_HELPER_FOLDER: " ++ fsh_folder) >>
  log_info 112 ("STATIC_FOLDER: " ++ app_static_folder app).

(** Returns the name of the configuration class handed to [get_config]. *)
Definition parse_options : M string :=
  let* config_prod := getitem OPTIONS "--config_prod" in
  let config_class_string :=
    if truthy config_prod then "pypi_portal.config.Production"
    else "pypi_portal.config.Config" in
  call (get_config_call config_class_string) >>
  ret config_class_string.

Definition create_app (config : string) (no_sql : bool) : M App :=
  call (create_app_call config no_sql) >>
  ret (env_create_app env config no_sql).

(** [app.blueprints['flask_statics_helper'].static_folder]. *)
Definition fsh_static_folder (app : App) : M string :=
  match app_blueprints app !! "flask_statics_helper" with
  | Some folder => ret folder
  | None => raise (KeyError "flask_statics_helper")
  end.

(** The [@command] decorator.  [wrapped] carries the name of [func]
    through [functools.wraps]. *)
Definition command (func : Func) (attrs : CommandAttrs)
    : Exn + (Func * CommandAttrs) :=
  let wrapped := {| func_name := func_name func;
                    func_body := fun w => func_body func w |} in
  match OPTIONS !! func_name func with
  | None =>
      inl (KeyError ("Cannot register " ++ func_name func
                     ++ ", not mentioned in docstring/docopt."))
  | Some v =>
      inr (wrapped, if truthy v then {| chosen := Some func |} else attrs)
  end.

Definition devserver : Func :=
  {| func_name := "devserver";
     func_body :=
       let* config := parse_options in
       let* app := create_app config false in
       let* fsh_folder := fsh_static_folder app in
       let* port := getitem OPTIONS "--port" in
       log_messages app port fsh_folder >>
       let* port := getitem OPTIONS "--port" in
       let* n := Value_int port in
       call (app_run_call "0.0.0.0" n) |}.

Definition tornadoserver : Func :=
  {| func_name := "tornadoserver";
     func_body :=
       let* config := parse_options in
       let* app := create_app config false in
       let* fsh_folder := fsh_static_folder app in
       let* port := getitem OPTIONS "--port" in
       log_messages app port fsh_folder >>
       call wsgi_container_call >>
       call (web_application_call fsh_folder (app_static_folder app)) >>
       call http_server_call >>
       let* port := getitem OPTIONS "--port" in
       call (http_server_bind_call port) >>
       call (http_server_start_call 0) >>
       call ioloop_start_call |}.

Definition celery_command (name : string) (celery_args : list string) : Func :=
  {| func_name := name;
     func_body :=
       let* config := parse_options in
       let* app := create_app config true in
       call celery_Logging_setup_assign >>
       call app_context_enter >>
       call (celery_main_call celery_args) >>
       call app_context_exit |}.

Definition celerydev : Func :=
  celery_command "celerydev"
    ["celery"; "worker"; "-B"; "-s"; "/tmp/celery.db"; "--concurrency=5"].

Definition celerybeat : Func :=
  celery_command "celerybeat"
    ["celery"; "beat"; "-C"; "--pidfile=celery_beat.pid"].

Definition celeryworker : Func :=
  celery_command "celeryworker"
    ["celery"; "worker"; "-C"; "--autoscale=10,1"; "--without-gossip"].

Definition shell : Func :=
  {| func_name := "shell";
     func_body :=
       let* config := parse_options in
       let* app := create_app config false in
       call app_context_push >>
       call shell_run_call |}.

Definition create_all : Func :=
  {| func_name := "create_all";
     func_body :=
       let* config := parse_options in
       let* app := create_app config false in
       call app_context_enter >>
       call db_create_all_call >>
       call app_context_exit |}.

(** The decorated functions, in the order the module defines them. *)
Definition decorated : list Func :=
  [devserver; tornadoserver; celerydev; celerybeat; celeryworker; shell;
   create_all].

(** Decorating the functions of [fs] one after the other; the first
    KeyError ends the import of the module. *)
Fixpoint register (fs : list Func) (attrs : CommandAttrs)
    : Exn + CommandAttrs :=
  match fs with
  | [] => inr attrs
  | f :: fs' =>
      match command f attrs with
      | inl e => inl e
      | inr (_, attrs') => register fs' attrs'
      end
  end.

(** [getattr(command, 'chosen')()]. *)
Definition call_chosen (attrs : CommandAttrs) : M unit :=
  match chosen attrs with
  | Some f => func_body f
  | None =>
      raise (AttributeError "'function' object has no attribute 'chosen'")
  end.

Definition signal_signal_SIGINT (h : SigintHandler) : M unit :=
  fun w => (Ret tt, set_sigint h w).

(** The block under [if __name__ == '__main__':]. *)
Definition main (attrs : CommandAttrs) : M unit :=
  signal_signal_SIGINT (SigExit 0) >>
  setup_logging OPTIONS >>
  let* port := getitem OPTIONS "--port" in
  let* numeric := Value_isdigit port in
  (if negb numeric then
     print "ERROR: Port should be a number." >> sys_exit 1
   else ret tt) >>
  call_chosen attrs.

(** Running manage.py once docopt has returned [OPTIONS]: the decorators
    run while the module body is executed, then the main block. *)
Definition manage_py : M unit :=
  match register decorated {| chosen := None |} with
  | inl e => raise e
  | inr attrs => main attrs
  end.

End ManagePy.

(** ** What a run leaves behind *)

(** The keys of [LEVEL_MAP]. *)
Definition standard_levels : list Z :=
  [logging.FATAL; logging.ERROR; logging.WARN; logging.INFO; logging.DEBUG].

(** The state [setup_logging] leaves when it returns. *)
Definition logging_configured (log_to_disk : bool) (w : World) : World :=
  set_root_handlers (fun hs => (hs ++ [console_handler log_to_disk])%list)
    (set_root_level logging.DEBUG w).

Definition dir_missing_line (d : string) : string :=
  "ERROR: Directory " ++ d ++ " does not exist.".

Definition dir_unwritable_line (d : string) : string :=
  "ERROR: No permissions to write to directory " ++ d ++ ".".

Definition printed (line : string) (w : World) : World :=
  set_out (fun o => (o ++ [(Console, line)])%list) w.

Definition port_error_line : string := "ERROR: Port should be a number.".

(** The state in which [setup_logging] runs: the SIGINT handler is set. *)
Definition armed (w : World) : World := set_sigint (SigExit 0) w.

(** Logging [r] once [setup_logging] has configured a fresh process. *)
Definition logged (fs : FS) (r : LogRecord) (log_to_disk : bool) : World :=
  snd (log_record r (logging_configured log_to_disk (initial_world fs))).

(** [setup_logging()] in a fresh process, then one record logged. *)
Definition setup_then_log (OPTIONS : gmap string Value) (fs : FS)
    (r : LogRecord) : Outcome unit * World :=
  (setup_logging OPTIONS >> log_record r) (initial_world fs).

(** [OPTIONS[f.__name__]] is true: the decorator assigns [f] to [chosen]. *)
Definition selected (OPTIONS : gmap string Value) (f : Func) : bool :=
  match OPTIONS !! func_name f with
  | Some v => truthy v
  | None => false
  end.

(** The decorated function called [name]. *)
Definition function_named (OPTIONS : gmap string Value) (env : Env)
    (name : string) : option Func :=
  List.find (fun f => String.eqb (func_name f) name) (decorated OPTIONS env).

(** A non-empty log directory that is not an existing, writable directory. *)
Definition log_dir_rejected (fs : FS) (log_dir : option string) : bool :=
  match log_dir with
  | Some (String _ _ as d) => negb (fs_isdir fs d && fs_writable fs d)
  | _ => false
  end.

(** The value of [log_to_disk] when the directory is not rejected. *)
Definition log_to_disk (log_dir : option string) : bool :=
  match log_dir with
  | Some (String _ _) => true
  | _ => false
  end.

Definition log_dir_error_line (fs : FS) (log_dir : option string) : string :=
  match log_dir with
  | Some d => if fs_isdir fs d then dir_unwritable_line d
              else dir_missing_line d
  | None => ""
  end.

(** The state a function is called in: SIGINT handler set, logging
    configured. *)
Definition ready (log_dir : option string) (w : World) : World :=
  logging_configured (log_to_disk log_dir) (armed w).

(** Calls that hand control to a server, a worker or a shell. *)
Definition is_server_loop (c : Call) : bool :=
  match c with
  | app_run_call _ _ | http_server_start_call _ | ioloop_start_call
  | celery_main_call _ | shell_run_call => true
  | _ => false
  end.

Definition is_db_create_all (c : Call) : bool :=
  match c with
  | db_create_all_call => true
  | _ => false
  end.

Definition config_class (config_prod : bool) : string :=
  if config_prod then "pypi_portal.config.Production"
  else "pypi_portal.config.Config".

(** What [create_all()] calls, in order. *)
Definition create_all_calls (config_prod : bool) : list Call :=
  [get_config_call (config_class config_prod);
   create_app_call (config_class config_prod) false;
   app_context_enter; db_create_all_call; app_context_exit].

(** A computation that returns and leaves the call log as it was. *)
Definition logs_only (m : M unit) : Prop :=
  forall w, exists w', m w = (Ret tt, w') /\ w_calls w' = w_calls w.

(** ** Sample inputs *)

(** A file system with two directories: [/var/log], writable, and [/etc],
    read-only. *)
Definition sample_fs : FS :=
  {| fs_isdir := fun d => String.eqb d "/var/log" || String.eqb d "/etc";
     fs_writable := fun d => String.eqb d "/var/log";
     fs_files := [] |}.

Definition sample_app : App :=
  {| app_config_DEBUG := true;
     app_static_folder := "/srv/static";
     app_blueprints := {[ "flask_statics_helper" := "/srv/fsh" ]} |}.

Definition sample_env : Env :=
  {| env_localtime := {| tm_mon := 3; tm_mday := 14; tm_hour := 1;
                         tm_min := 59; tm_sec := 26 |};
     env_msecs := 535; env_pid := 4242; flask_version := "0.10.1";
     env_create_app := fun _ _ => sample_app |}.

Definition sample_record (level : Z) : LogRecord :=
  {| levelno := level; created := env_localtime sample_env;
     msecs := 535; process := 4242; filename := "manage.py"; lineno := 108;
     message := "Server is running" |}.

(** A function the usage text does not mention. *)
Definition runserver : Func :=
  {| func_name := "runserver"; func_body := call shell_run_call |}.

(** ** Expected lines and calls *)

(** A line in the layout of [glog_formatter]: the severity letter, month
    and day, the time of day, milliseconds, process id, file and line,
    then the message. *)
Definition glog_time (t : struct_time) : string :=
  dec2 (tm_mon t) ++ dec2 (tm_mday t) ++ " " ++ dec2 (tm_hour t) ++ ":"
  ++ dec2 (tm_min t) ++ ":" ++ dec2 (tm_sec t).

Definition glog_line (letter : string) (r : LogRecord) : string :=
  letter ++ glog_time (created r) ++ "." ++ dec (msecs r) ++ " "
  ++ dec (process r) ++ " " ++ filename r ++ ":" ++ dec (lineno r) ++ "] "
  ++ message r.

(** The record [log.info(msg)] creates at line [line] of manage.py. *)
Definition info_record (env : Env) (line : Z) (msg : string) : LogRecord :=
  {| levelno := logging.INFO; created := env_localtime env;
     msecs := env_msecs env; process := env_pid env;
     filename := "manage.py"; lineno := line; message := msg |}.

(** The five records of [log_messages], in order. *)
Definition log_messages_records (env : Env) (app : App) (port : Value)
    (fsh_folder : string) : list LogRecord :=
  [info_record env 108
     ("Server is running at http://0.0.0.0:" ++ str_of_value port ++ "/");
   info_record env 109 ("Flask version: " ++ flask_version env);
   info_record env 110 ("DEBUG: " ++ str_of_bool (app_config_DEBUG app));
   info_record env 111 ("FLASK_STATICS_HELPER_FOLDER: " ++ fsh_folder);
   info_record env 112 ("STATIC_FOLDER: " ++ app_static_folder app)].

(** What reaches [sys.stdout] from [log_messages] when the console handler
    is the only handler: nothing when it is at ERROR. *)
Definition log_messages_output (log_to_disk : bool) (env : Env) (app : App)
    (port : Value) (fsh_folder : string) : list (Sink * string) :=
  if log_to_disk then []
  else map (fun r => (Console, glog_line "I" r))
           (log_messages_records env app port fsh_folder).

(** Logging as [setup_logging] leaves it in a fresh process. *)
Definition configured (log_to_disk : bool) (w : World) : Prop :=
  w_root_level w = logging.DEBUG /\
  w_root_handlers w = [console_handler log_to_disk].

Definition is_celery (cmd : string) : bool :=
  String.eqb cmd "celerydev" || String.eqb cmd "celerybeat"
  || String.eqb cmd "celeryworker".

(** The first two calls of every decorated function. *)
Definition app_calls (config_prod no_sql : bool) : list Call :=
  [get_config_call (config_class config_prod);
   create_app_call (config_class config_prod) no_sql].

Definition devserver_calls (config_prod : bool) (n : Z) : list Call :=
  (app_calls config_prod false ++ [app_run_call "0.0.0.0" n])%list.


Definition celery_calls (config_prod : bool) (celery_args : list string)
    : list Call :=
  (app_calls config_prod true ++
   [celery_Logging_setup_assign; app_context_enter;
    celery_main_call celery_args; app_context_exit])%list.

Definition shell_calls (config_prod : bool) : list Call :=
  (app_calls config_prod false ++ [app_context_push; shell_run_call])%list.


(** The run of [cmd] returns, having made exactly the calls [calls] and
    written nothing. *)
Definition runs_quietly (cmd : string) (port log_dir : option string)
    (config_prod : bool) (env : Env) (w : World) (calls : list Call) : Prop :=
  exists w',
    manage_py (docopt_result cmd port log_dir config_prod) env w = (Ret tt, w')
    /\ w_calls w' = (w_calls w ++ calls)%list
    /\ w_out w' = w_out w.

(** An application without the [flask_statics_helper] blueprint. *)
Definition bare_env : Env :=
  {| env_localtime := env_localtime sample_env; env_msecs := 0;
     env_pid := 1; flask_version := "0.10.1";
     env_create_app := fun _ _ =>
       {| app_config_DEBUG := false; app_static_folder := "/srv/static";
          app_blueprints := ∅ |} |}.

(** A mapping in which two commands are true at once, which docopt never
    returns for the usage text. *)
Definition two_commands : gmap string Value :=
  <["shell" := VBool true]> (docopt_result "devserver" None None false).


(** * Properties *)

(** ** Digits *)

Lemma all_digits_Forall (s : string) :
  all_digits s = true <->
  forall c, In c (list_ascii_of_string s) -> is_digit c = true.
Proof.
  induction s as [|a s IH]; simpl.
  - split; [intros _ c []|reflexivity].
  - rewrite andb_true_iff, IH. split.
    + intros [Ha Hs] c [<-|Hc]; auto.
    + intros H. split; [apply H; now left|intros c Hc; apply H; now right].
Qed.

Lemma isdigit_spec (s : string) :
  isdigit s = true <->
  s <> "" /\ forall c, In c (list_ascii_of_string s) -> is_digit c = true.
Proof.
  destruct s as [|a s].
  - simpl. split; [discriminate|intros [H _]; now destruct H].
  - change (isdigit (String a s)) with (all_digits (String a s)).
    rewrite all_digits_Forall. split; [intros H; split; [discriminate|exact H]|tauto].
Qed.

Lemma non_digit_isdigit (s : string) (c : ascii) :
  In c (list_ascii_of_string s) -> is_digit c = false -> isdigit s = false.
Proof.
  intros Hin Hc. destruct (isdigit s) eqn:E; [|reflexivity].
  apply isdigit_spec in E as [_ E]. rewrite (E c Hin) in Hc. discriminate.
Qed.

(** ** The severity letters *)

Lemma LEVEL_MAP_lookup (z : Z) :
  LEVEL_MAP !! z =
    if decide (z = logging.DEBUG) then Some "D"
    else if decide (z = logging.INFO) then Some "I"
    else if decide (z = logging.WARN) then Some "W"
    else if decide (z = logging.ERROR) then Some "E"
    else if decide (z = logging.FATAL) then Some "F"
    else None.
Proof.
  unfold LEVEL_MAP.
  repeat case_decide; subst; simplify_map_eq; try reflexivity.
Qed.

Lemma LEVEL_MAP_None (z : Z) :
  LEVEL_MAP !! z = None <-> ~ In z standard_levels.
Proof.
  rewrite LEVEL_MAP_lookup. unfold standard_levels. simpl.
  repeat case_decide; subst; split; try discriminate; try tauto.
  intros _ Hin. intuition congruence.
Qed.

Lemma glog_format_standard (r : LogRecord) (letter : string) :
  exists line, Formatter_format glog_formatter r (Some letter) = inr line.
Proof. eexists. vm_compute. reflexivity. Qed.

Lemma glog_format_defined (r : LogRecord) :
  In (levelno r) standard_levels ->
  exists line, CustomFormatter_format glog_formatter r = inr line.
Proof.
  intros H. unfold CustomFormatter_format.
  destruct (LEVEL_MAP !! levelno r) as [letter|] eqn:E.
  - apply glog_format_standard.
  - apply LEVEL_MAP_None in E. contradiction.
Qed.

(** C9: [CustomFormatter.format] looks the record's level up in
    [LEVEL_MAP]; for a level that is not one of FATAL, ERROR, WARN, INFO
    and DEBUG the lookup raises KeyError and no line is produced, whereas
    for each of the five levels the formatter installed by
    [setup_logging] returns a formatted line. *)
Theorem format_only_standard_levels :
  (forall (self : CustomFormatter) (r : LogRecord),
      ~ In (levelno r) standard_levels ->
      CustomFormatter_format self r = inl (KeyError (dec (levelno r)))) /\
  (forall r : LogRecord,
      In (levelno r) standard_levels ->
      exists line, CustomFormatter_format glog_formatter r = inr line).
Proof.
  split.
  - intros self r H. unfold CustomFormatter_format.
    apply LEVEL_MAP_None in H. now rewrite H.
  - exact glog_format_defined.
Qed.

Lemma format_only_standard_levels_witness :
  CustomFormatter_format glog_formatter (sample_record 25)
    = inl (KeyError "25") /\
  CustomFormatter_format glog_formatter (sample_record logging.NOTSET)
    = inl (KeyError "0") /\
  exists line,
    CustomFormatter_format glog_formatter (sample_record logging.INFO)
      = inr line.
Proof.
  destruct format_only_standard_levels as [Hother Hstd].
  split; [|split].
  - apply (Hother glog_formatter (sample_record 25)).
    vm_compute. intuition discriminate.
  - apply (Hother glog_formatter (sample_record logging.NOTSET)).
    vm_compute. intuition discriminate.
  - apply (Hstd (sample_record logging.INFO)). vm_compute. tauto.
Defined.

(** ** The decorator *)

(** C5: decorating a function whose name is not a key of [OPTIONS] raises
    KeyError at once: the decorator returns no function, leaves the
    attributes of [command] as they were (no result), and the functions
    decorated after it are never reached. *)
Theorem command_unknown_name_raises
    (OPTIONS : gmap string Value) (func : Func)
    (attrs : CommandAttrs) (rest : list Func) :
  OPTIONS !! func_name func = None ->
  command OPTIONS func attrs
    = inl (KeyError ("Cannot register " ++ func_name func
                     ++ ", not mentioned in docstring/docopt.")) /\
  register OPTIONS (func :: rest) attrs
    = inl (KeyError ("Cannot register " ++ func_name func
                     ++ ", not mentioned in docstring/docopt.")).
Proof.
  intros H. unfold register, command. rewrite H. split; reflexivity.
Qed.

Lemma command_unknown_name_raises_witness :
  command (docopt_result "shell" None None false) runserver {| chosen := None |}
    = inl (KeyError "Cannot register runserver, not mentioned in docstring/docopt.") /\
  register (docopt_result "shell" None None false)
           [runserver; shell (docopt_result "shell" None None false) sample_env]
           {| chosen := None |}
    = inl (KeyError "Cannot register runserver, not mentioned in docstring/docopt.").
Proof.
  apply (command_unknown_name_raises
           (docopt_result "shell" None None false) runserver).
  vm_compute. reflexivity.
Defined.

(** ** What docopt returns *)

Section Docopt.

Variables (cmd : string) (port log_dir : option string) (config_prod : bool).

Let OPTIONS := docopt_result cmd port log_dir config_prod.

Lemma docopt_port : OPTIONS !! "--port" = Some (VStr (default "5000" port)).
Proof. reflexivity. Qed.

Lemma docopt_log_dir :
  OPTIONS !! "--log_dir"
    = Some (match log_dir with Some d => VStr d | None => VNone end).
Proof. reflexivity. Qed.

Lemma docopt_config_prod :
  OPTIONS !! "--config_prod" = Some (VBool config_prod).
Proof. reflexivity. Qed.

Lemma docopt_command (c : string) :
  In c commands -> OPTIONS !! c = Some (VBool (bool_decide (c = cmd))).
Proof.
  unfold commands. simpl.
  intros H. repeat (destruct H as [<-|H]; [reflexivity|]). destruct H.
Qed.

End Docopt.

(** ** setup_logging, case by case *)

Ltac run :=
  unfold bind, ret, raise, sys_exit, print, getitem, as_path, os_path_isdir,
    os_access_W_OK, root_setLevel, root_addHandler; simpl.

Section SetupLogging.

Variables (OPTIONS : gmap string Value) (w : World).

Lemma setup_logging_falsy (v : Value) :
  OPTIONS !! "--log_dir" = Some v -> truthy v = false ->
  setup_logging OPTIONS w = (Ret tt, logging_configured false w).
Proof.
  intros Hv Ht. unfold setup_logging. run. rewrite Hv. simpl.
  rewrite Ht. reflexivity.
Qed.

Lemma setup_logging_valid (d : string) :
  OPTIONS !! "--log_dir" = Some (VStr d) -> d <> "" ->
  fs_isdir (w_fs w) d = true -> fs_writable (w_fs w) d = true ->
  setup_logging OPTIONS w = (Ret tt, logging_configured true w).
Proof.
  intros Hv Hd Hdir Hacc. destruct d as [|a d]; [congruence|].
  unfold setup_logging. run. rewrite Hv. simpl. rewrite Hdir. simpl.
  rewrite Hacc.
  reflexivity.
Qed.

Lemma setup_logging_missing (d : string) :
  OPTIONS !! "--log_dir" = Some (VStr d) -> d <> "" ->
  fs_isdir (w_fs w) d = false ->
  setup_logging OPTIONS w = (SysExit 1, printed (dir_missing_line d) w).
Proof.
  intros Hv Hd Hdir. destruct d as [|a d]; [congruence|].
  unfold setup_logging. run. rewrite Hv. simpl. rewrite Hdir. reflexivity.
Qed.

Lemma setup_logging_unwritable (d : string) :
  OPTIONS !! "--log_dir" = Some (VStr d) -> d <> "" ->
  fs_isdir (w_fs w) d = true -> fs_writable (w_fs w) d = false ->
  setup_logging OPTIONS w = (SysExit 1, printed (dir_unwritable_line d) w).
Proof.
  intros Hv Hd Hdir Hacc. destruct d as [|a d]; [congruence|].
  unfold setup_logging. run. rewrite Hv. simpl. rewrite Hdir. simpl.
  rewrite Hacc.
  reflexivity.
Qed.

End SetupLogging.

(** C4, as stated, fails for the empty path: [''] names no directory, yet
    [if OPTIONS['--log_dir']:] takes it for an absent flag, nothing is
    printed and logging is configured for the console. *)
Lemma setup_logging_empty_log_dir_accepted :
  let OPTIONS := docopt_result "devserver" None (Some "") false in
  let w := initial_world sample_fs in
  (OPTIONS !! "--log_dir" = Some (VStr "") /\
   fs_isdir (w_fs w) "" = false /\
   setup_logging OPTIONS w = (Ret tt, logging_configured false w) /\
   w_out (snd (setup_logging OPTIONS w)) = []) /\
  ~ (forall (OPTIONS : gmap string Value) (w : World) (d : string),
        OPTIONS !! "--log_dir" = Some (VStr d) ->
        fs_isdir (w_fs w) d = false \/ fs_writable (w_fs w) d = false ->
        fst (setup_logging OPTIONS w) = SysExit 1).
Proof.
  split.
  - repeat split; reflexivity.
  - intros H.
    specialize (H (docopt_result "devserver" None (Some "") false)
                  (initial_world sample_fs) "" eq_refl (or_introl eq_refl)).
    vm_compute in H. discriminate H.
Qed.

(** C4 (amended): for every non-empty value of the log-directory flag that
    does not name an existing directory, or names one that is not
    writable, [setup_logging] prints one error line and the process exits
    with code 1; the file system is left as it was, no handler is
    installed and nothing is written to any file. *)
Theorem setup_logging_rejects_bad_log_dir
    (OPTIONS : gmap string Value) (w : World) (d : string) :
  OPTIONS !! "--log_dir" = Some (VStr d) ->
  d <> "" ->
  fs_isdir (w_fs w) d = false \/ fs_writable (w_fs w) d = false ->
  let r := setup_logging OPTIONS w in
  fst r = SysExit 1 /\ exit_code (fst r) = 1 /\
  snd r = printed (if fs_isdir (w_fs w) d then dir_unwritable_line d
                   else dir_missing_line d) w /\
  w_fs (snd r) = w_fs w /\
  w_root_handlers (snd r) = w_root_handlers w /\
  file_lines (snd r) = file_lines w.
Proof.
  intros Hv Hd Hbad r.
  assert (Hr : r = (SysExit 1,
                    printed (if fs_isdir (w_fs w) d then dir_unwritable_line d
                             else dir_missing_line d) w)).
  { subst r. destruct (fs_isdir (w_fs w) d) eqn:Hdir.
    - destruct Hbad as [Hbad|Hbad]; [discriminate|].
      now apply setup_logging_unwritable.
    - now apply setup_logging_missing. }
  rewrite Hr. simpl. repeat split.
  unfold file_lines, printed. simpl. rewrite omap_app. simpl.
  now rewrite app_nil_r.
Qed.

Lemma setup_logging_rejects_bad_log_dir_witness :
  let OPTIONS := docopt_result "celerybeat" None (Some "/nonexistent") false in
  let w := initial_world sample_fs in
  let r := setup_logging OPTIONS w in
  fst r = SysExit 1 /\ exit_code (fst r) = 1 /\
  snd r = printed "ERROR: Directory /nonexistent does not exist." w /\
  w_fs (snd r) = w_fs w /\
  w_root_handlers (snd r) = w_root_handlers w /\
  file_lines (snd r) = file_lines w.
Proof.
  apply (setup_logging_rejects_bad_log_dir
           (docopt_result "celerybeat" None (Some "/nonexistent") false)
           (initial_world sample_fs) "/nonexistent").
  - reflexivity.
  - discriminate.
  - left. reflexivity.
Defined.

Lemma setup_logging_read_only_dir :
  setup_logging (docopt_result "celerybeat" None (Some "/etc") false)
                (initial_world sample_fs)
  = (SysExit 1,
     printed "ERROR: No permissions to write to directory /etc."
             (initial_world sample_fs)).
Proof. reflexivity. Qed.

(** ** Where log records go *)

Section Routing.

Variables (fs : FS) (r : LogRecord).

Lemma logged_below_handler_level (log_to_disk : bool) :
  (levelno r < h_level (console_handler log_to_disk))%Z ->
  logged fs r log_to_disk = logging_configured log_to_disk (initial_world fs).
Proof.
  intros H. unfold logged, log_record. cbn [w_root_level w_root_handlers
    logging_configured set_root_handlers set_root_level initial_world app
    callHandlers].
  destruct (_ <=? levelno r)%Z; [|reflexivity].
  apply Z.leb_gt in H. rewrite H. reflexivity.
Qed.

Lemma logged_standard (log_to_disk : bool) :
  In (levelno r) standard_levels ->
  (h_level (console_handler log_to_disk) <= levelno r)%Z ->
  exists line,
    CustomFormatter_format glog_formatter r = inr line /\
    w_out (logged fs r log_to_disk) = [(Console, line)].
Proof.
  intros Hstd Hlevel.
  destruct (glog_format_defined r Hstd) as [line Hline].
  exists line. split; [exact Hline|].
  unfold logged, log_record. cbn [w_root_level w_root_handlers
    logging_configured set_root_handlers set_root_level initial_world app
    callHandlers].
  assert (Hroot : (logging.DEBUG <=? levelno r)%Z = true).
  { apply Z.leb_le. unfold standard_levels in Hstd. simpl in Hstd.
    unfold logging.FATAL, logging.ERROR, logging.WARN, logging.INFO,
      logging.DEBUG in *. lia. }
  rewrite Hroot. apply Z.leb_le in Hlevel. rewrite Hlevel.
  unfold bind, emit, Handler_format.
  cbn [h_formatter console_handler]. rewrite Hline. reflexivity.
Qed.

End Routing.

Section LoggingRoutes.

Variables (OPTIONS : gmap string Value) (fs : FS).

Lemma setup_then_log_falsy (v : Value) (r : LogRecord) :
  OPTIONS !! "--log_dir" = Some v -> truthy v = false ->
  snd (setup_then_log OPTIONS fs r) = logged fs r false.
Proof.
  intros Hv Ht. unfold setup_then_log, bind.
  rewrite (setup_logging_falsy OPTIONS (initial_world fs) v Hv Ht).
  reflexivity.
Qed.

Lemma setup_then_log_valid (d : string) (r : LogRecord) :
  OPTIONS !! "--log_dir" = Some (VStr d) -> d <> "" ->
  fs_isdir fs d = true -> fs_writable fs d = true ->
  setup_then_log OPTIONS fs r = log_record r (logging_configured true (initial_world fs)).
Proof.
  intros Hv Hd Hdir Hacc. unfold setup_then_log, bind.
  rewrite (setup_logging_valid OPTIONS (initial_world fs) d Hv Hd Hdir Hacc).
  reflexivity.
Qed.

(** Without a log directory every standard severity reaches the console. *)
Lemma console_gets_all_without_log_dir (v : Value) (r : LogRecord) :
  OPTIONS !! "--log_dir" = Some v -> truthy v = false ->
  In (levelno r) standard_levels ->
  exists line,
    CustomFormatter_format glog_formatter r = inr line /\
    console_lines (snd (setup_then_log OPTIONS fs r)) = [line].
Proof.
  intros Hv Ht Hstd. rewrite (setup_then_log_falsy v r Hv Ht).
  destruct (logged_standard fs r false Hstd) as (line & Hline & Hout).
  - unfold standard_levels in Hstd. simpl in *.
    unfold logging.FATAL, logging.ERROR, logging.WARN, logging.INFO,
      logging.DEBUG in *. lia.
  - exists line. split; [exact Hline|].
    unfold console_lines. now rewrite Hout.
Qed.

(** With a valid log directory ERROR and FATAL reach the console. *)
Lemma console_gets_errors_with_log_dir (d : string) (r : LogRecord) :
  OPTIONS !! "--log_dir" = Some (VStr d) -> d <> "" ->
  fs_isdir fs d = true -> fs_writable fs d = true ->
  levelno r = logging.ERROR \/ levelno r = logging.FATAL ->
  exists line,
    CustomFormatter_format glog_formatter r = inr line /\
    console_lines (snd (setup_then_log OPTIONS fs r)) = [line].
Proof.
  intros Hv Hd Hdir Hacc Hlevel.
  rewrite (setup_then_log_valid d r Hv Hd Hdir Hacc).
  destruct (logged_standard fs r true) as (line & Hline & Hout).
  - unfold standard_levels. simpl. destruct Hlevel as [->| ->]; auto.
  - simpl. unfold logging.FATAL, logging.ERROR in *. lia.
  - exists line. split; [exact Hline|].
    unfold console_lines. unfold logged in Hout. now rewrite Hout.
Qed.

(** C1: with a valid log directory the console handler is set to ERROR
    and it is the only handler [setup_logging] installs: a record below
    ERROR is written nowhere, neither to the console nor to a file in
    the directory (or anywhere else on disk). *)
Theorem setup_logging_log_dir_drops_below_error
    (d : string) (r : LogRecord) :
  OPTIONS !! "--log_dir" = Some (VStr d) -> d <> "" ->
  fs_isdir fs d = true -> fs_writable fs d = true ->
  (levelno r < logging.ERROR)%Z ->
  setup_then_log OPTIONS fs r = (Ret tt, logging_configured true (initial_world fs)) /\
  w_root_handlers (snd (setup_then_log OPTIONS fs r)) = [console_handler true] /\
  console_lines (snd (setup_then_log OPTIONS fs r)) = [] /\
  file_lines (snd (setup_then_log OPTIONS fs r)) = [] /\
  w_fs (snd (setup_then_log OPTIONS fs r)) = fs.
Proof.
  intros Hv Hd Hdir Hacc Hlevel.
  assert (H : setup_then_log OPTIONS fs r
              = (Ret tt, logging_configured true (initial_world fs))).
  { rewrite (setup_then_log_valid d r Hv Hd Hdir Hacc).
    pose proof (logged_below_handler_level fs r true Hlevel) as Hl.
    unfold logged in Hl.
    destruct (log_record r (logging_configured true (initial_world fs)))
      as [o w'] eqn:E.
    simpl in Hl. subst w'. f_equal.
    unfold log_record in E. revert E.
    cbn [w_root_level w_root_handlers logging_configured set_root_handlers
         set_root_level initial_world app callHandlers].
    destruct (_ <=? levelno r)%Z; [|congruence].
    apply Z.leb_gt in Hlevel. simpl. unfold bind. rewrite Hlevel.
    unfold ret. congruence. }
  rewrite H. repeat split.
Qed.

End LoggingRoutes.

Lemma setup_logging_log_dir_drops_below_error_witness :
  let OPTIONS := docopt_result "devserver" None (Some "/var/log") false in
  let r := sample_record logging.INFO in
  setup_then_log OPTIONS sample_fs r
    = (Ret tt, logging_configured true (initial_world sample_fs)) /\
  w_root_handlers (snd (setup_then_log OPTIONS sample_fs r))
    = [console_handler true] /\
  console_lines (snd (setup_then_log OPTIONS sample_fs r)) = [] /\
  file_lines (snd (setup_then_log OPTIONS sample_fs r)) = [] /\
  w_fs (snd (setup_then_log OPTIONS sample_fs r)) = sample_fs.
Proof.
  apply (setup_logging_log_dir_drops_below_error
           (docopt_result "devserver" None (Some "/var/log") false)
           sample_fs "/var/log" (sample_record logging.INFO)).
  - reflexivity.
  - discriminate.
  - reflexivity.
  - reflexivity.
  - reflexivity.
Defined.

(** ** Registration *)

Lemma register_total (OPTIONS : gmap string Value) (fs : list Func) :
  (forall f, In f fs -> is_Some (OPTIONS !! func_name f)) ->
  forall attrs, exists attrs', register OPTIONS fs attrs = inr attrs'.
Proof.
  induction fs as [|f fs IH]; intros Hkeys attrs; simpl.
  - now exists attrs.
  - destruct (Hkeys f (or_introl eq_refl)) as [v Hv].
    unfold command. rewrite Hv.
    apply IH. intros g Hg. apply Hkeys. now right.
Qed.

Lemma decorated_names (OPTIONS : gmap string Value) (env : Env) (f : Func) :
  In f (decorated OPTIONS env) -> In (func_name f) commands.
Proof.
  unfold decorated, commands. simpl.
  intros H. repeat (destruct H as [<-|H]; [simpl; tauto|]). destruct H.
Qed.

Lemma register_docopt_total (cmd : string) (port log_dir : option string)
    (config_prod : bool) (env : Env) :
  let OPTIONS := docopt_result cmd port log_dir config_prod in
  exists attrs,
    register OPTIONS (decorated OPTIONS env) {| chosen := None |} = inr attrs.
Proof.
  intros OPTIONS. apply register_total. intros f Hf.
  apply decorated_names in Hf. subst OPTIONS.
  rewrite (docopt_command cmd port log_dir config_prod _ Hf). now eexists.
Qed.

Lemma register_docopt (cmd : string) (port log_dir : option string)
    (config_prod : bool) (env : Env) :
  In cmd commands ->
  let OPTIONS := docopt_result cmd port log_dir config_prod in
  exists f,
    function_named OPTIONS env cmd = Some f /\
    func_name f = cmd /\
    List.filter (selected OPTIONS) (decorated OPTIONS env) = [f] /\
    register OPTIONS (decorated OPTIONS env) {| chosen := None |}
      = inr {| chosen := Some f |}.
Proof.
  unfold commands. cbn [In]. intros H.
  repeat (destruct H as [<-|H];
          [eexists; split; [reflexivity|]; repeat split; reflexivity|]).
  destruct H.
Qed.

(** ** The main block, step by step *)

Section Main.

Variables (OPTIONS : gmap string Value) (attrs : CommandAttrs) (w : World).

Lemma main_setup_exits (code : Z) (w' : World) :
  setup_logging OPTIONS (armed w) = (SysExit code, w') ->
  main OPTIONS attrs w = (SysExit code, w').
Proof.
  intros H. unfold main, bind, signal_signal_SIGINT. fold (armed w).
  now rewrite H.
Qed.

Lemma main_port_rejected (w' : World) (s : string) :
  setup_logging OPTIONS (armed w) = (Ret tt, w') ->
  OPTIONS !! "--port" = Some (VStr s) ->
  isdigit s = false ->
  main OPTIONS attrs w = (SysExit 1, printed port_error_line w').
Proof.
  intros H Hp Hs. unfold main, bind, signal_signal_SIGINT. fold (armed w).
  rewrite H. unfold getitem. rewrite Hp. simpl. rewrite Hs. reflexivity.
Qed.

Lemma main_port_accepted (w' : World) (s : string) :
  setup_logging OPTIONS (armed w) = (Ret tt, w') ->
  OPTIONS !! "--port" = Some (VStr s) ->
  isdigit s = true ->
  main OPTIONS attrs w = call_chosen attrs w'.
Proof.
  intros H Hp Hs. unfold main, bind, signal_signal_SIGINT. fold (armed w).
  rewrite H. unfold getitem. rewrite Hp. simpl. rewrite Hs. reflexivity.
Qed.

End Main.

(** ** A command line, from start to end *)

Section CommandLine.

Variables (cmd : string) (port log_dir : option string) (config_prod : bool).
Variables (env : Env) (w : World).

Let OPTIONS := docopt_result cmd port log_dir config_prod.

Lemma setup_logging_docopt (w0 : World) :
  setup_logging OPTIONS w0 =
    if log_dir_rejected (w_fs w0) log_dir
    then (SysExit 1, printed (log_dir_error_line (w_fs w0) log_dir) w0)
    else (Ret tt, logging_configured (log_to_disk log_dir) w0).
Proof.
  pose proof (docopt_log_dir cmd port log_dir config_prod) as Hv.
  fold OPTIONS in Hv.
  destruct log_dir as [[|a d]|]; cbn [log_dir_rejected log_to_disk].
  - now apply (setup_logging_falsy OPTIONS w0 (VStr "")).
  - cbn [log_dir_error_line].
    destruct (fs_isdir (w_fs w0) (String a d)) eqn:Hdir;
      [destruct (fs_writable (w_fs w0) (String a d)) eqn:Hacc|];
      cbn [andb negb].
    + now apply (setup_logging_valid OPTIONS w0 (String a d)).
    + now apply (setup_logging_unwritable OPTIONS w0 (String a d)).
    + now apply (setup_logging_missing OPTIONS w0 (String a d)).
  - now apply (setup_logging_falsy OPTIONS w0 VNone).
Qed.

Lemma main_docopt (attrs : CommandAttrs) :
  main OPTIONS attrs w =
    if log_dir_rejected (w_fs w) log_dir
    then (SysExit 1, printed (log_dir_error_line (w_fs w) log_dir) (armed w))
    else if isdigit (default "5000" port)
         then call_chosen attrs (ready log_dir w)
         else (SysExit 1, printed port_error_line (ready log_dir w)).
Proof.
  pose proof (setup_logging_docopt (armed w)) as Hs.
  change (w_fs (armed w)) with (w_fs w) in Hs.
  pose proof (docopt_port cmd port log_dir config_prod) as Hp.
  fold OPTIONS in Hp.
  destruct (log_dir_rejected (w_fs w) log_dir).
  - now apply main_setup_exits.
  - destruct (isdigit (default "5000" port)) eqn:Hd.
    + now apply (main_port_accepted OPTIONS attrs w _ _ Hs Hp).
    + now apply (main_port_rejected OPTIONS attrs w _ _ Hs Hp).
Qed.

Lemma manage_py_docopt :
  exists attrs,
    register OPTIONS (decorated OPTIONS env) {| chosen := None |} = inr attrs
    /\ manage_py OPTIONS env w = main OPTIONS attrs w.
Proof.
  destruct (register_docopt_total cmd port log_dir config_prod env)
    as [attrs Hreg].
  exists attrs. split; [exact Hreg|]. unfold manage_py.
  fold OPTIONS in Hreg |- *. now rewrite Hreg.
Qed.

Lemma manage_py_rejected_log_dir :
  log_dir_rejected (w_fs w) log_dir = true ->
  manage_py OPTIONS env w
    = (SysExit 1, printed (log_dir_error_line (w_fs w) log_dir) (armed w)).
Proof.
  intros H. destruct manage_py_docopt as (attrs & _ & ->).
  rewrite main_docopt. now rewrite H.
Qed.

Lemma manage_py_rejected_port :
  log_dir_rejected (w_fs w) log_dir = false ->
  isdigit (default "5000" port) = false ->
  manage_py OPTIONS env w = (SysExit 1, printed port_error_line (ready log_dir w)).
Proof.
  intros H Hd. destruct manage_py_docopt as (attrs & _ & ->).
  rewrite main_docopt. now rewrite H, Hd.
Qed.

Lemma manage_py_dispatch :
  In cmd commands ->
  log_dir_rejected (w_fs w) log_dir = false ->
  isdigit (default "5000" port) = true ->
  exists f,
    function_named OPTIONS env cmd = Some f /\
    func_name f = cmd /\
    List.filter (selected OPTIONS) (decorated OPTIONS env) = [f] /\
    register OPTIONS (decorated OPTIONS env) {| chosen := None |}
      = inr {| chosen := Some f |} /\
    manage_py OPTIONS env w = func_body f (ready log_dir w).
Proof.
  intros Hcmd H Hd.
  destruct (register_docopt cmd port log_dir config_prod env Hcmd)
    as (f & Hf & Hname & Hsel & Hreg).
  exists f. fold OPTIONS in Hf, Hsel, Hreg. repeat split; try assumption.
  unfold manage_py. rewrite Hreg, main_docopt, H, Hd. reflexivity.
Qed.

End CommandLine.

(** ** Dispatch *)

(** C2: for each of the seven commands given with no optional flag, the
    decorators assign to [chosen] exactly once, the function whose name is
    the command, and running the module executes the body of that function
    and nothing else after logging is configured. *)
Theorem one_command_chosen_and_run (cmd : string) (env : Env) (w : World) :
  In cmd commands ->
  let OPTIONS := docopt_result cmd None None false in
  exists f,
    function_named OPTIONS env cmd = Some f /\
    func_name f = cmd /\
    List.filter (selected OPTIONS) (decorated OPTIONS env) = [f] /\
    register OPTIONS (decorated OPTIONS env) {| chosen := None |}
      = inr {| chosen := Some f |} /\
    manage_py OPTIONS env w
      = func_body f (logging_configured false (armed w)).
Proof.
  intros Hcmd OPTIONS.
  apply (manage_py_dispatch cmd None None false env w Hcmd); reflexivity.
Qed.

Lemma one_command_chosen_and_run_witness :
  let OPTIONS := docopt_result "celeryworker" None None false in
  exists f,
    function_named OPTIONS sample_env "celeryworker" = Some f /\
    func_name f = "celeryworker" /\
    List.filter (selected OPTIONS) (decorated OPTIONS sample_env) = [f] /\
    register OPTIONS (decorated OPTIONS sample_env) {| chosen := None |}
      = inr {| chosen := Some f |} /\
    manage_py OPTIONS sample_env (initial_world sample_fs)
      = func_body f (logging_configured false (armed (initial_world sample_fs))).
Proof.
  apply (one_command_chosen_and_run "celeryworker" sample_env
           (initial_world sample_fs)).
  unfold commands. cbn [In]. tauto.
Defined.

(** ** The port flag *)

(** C3: when the port value contains a character that is not a digit, the
    module prints one error line and exits with code 1, and no call into
    Flask, Tornado, Celery or the database has been made: no function was
    run.  The line is the port error unless [setup_logging] has already
    rejected the log directory. *)
Theorem non_numeric_port_exits
    (cmd s : string) (log_dir : option string) (config_prod : bool)
    (env : Env) (w : World) (c : ascii) :
  In c (list_ascii_of_string s) ->
  is_digit c = false ->
  let r := manage_py (docopt_result cmd (Some s) log_dir config_prod) env w in
  fst r = SysExit 1 /\ exit_code (fst r) = 1 /\
  w_calls (snd r) = w_calls w /\
  exists line,
    w_out (snd r) = (w_out w ++ [(Console, line)])%list /\
    (line = port_error_line \/
     exists d, log_dir = Some d /\
               (line = dir_missing_line d \/ line = dir_unwritable_line d)).
Proof.
  intros Hin Hc r.
  pose proof (non_digit_isdigit s c Hin Hc) as Hd.
  destruct (log_dir_rejected (w_fs w) log_dir) eqn:Hrej.
  - subst r.
    rewrite (manage_py_rejected_log_dir cmd (Some s) log_dir config_prod env w Hrej).
    repeat split. eexists. split; [reflexivity|]. right.
    destruct log_dir as [d|]; [|discriminate]. exists d. split; [reflexivity|].
    cbn [log_dir_error_line]. destruct (fs_isdir (w_fs w) d); auto.
  - subst r.
    rewrite (manage_py_rejected_port cmd (Some s) log_dir config_prod env w Hrej Hd).
    repeat split. eexists. split; [reflexivity|]. now left.
Qed.

Lemma non_numeric_port_exits_witness :
  let r := manage_py (docopt_result "tornadoserver" (Some "80a") None false)
                     sample_env (initial_world sample_fs) in
  fst r = SysExit 1 /\ exit_code (fst r) = 1 /\
  w_calls (snd r) = [] /\
  exists line,
    w_out (snd r) = [(Console, line)] /\
    (line = port_error_line \/
     exists d, None = Some d /\
               (line = dir_missing_line d \/ line = dir_unwritable_line d)).
Proof.
  apply (non_numeric_port_exits "tornadoserver" "80a" None false sample_env
           (initial_world sample_fs) "a"%char).
  - cbn. tauto.
  - reflexivity.
Defined.

(** ** create_all *)

Lemma parse_options_docopt (OPTIONS : gmap string Value) (config_prod : bool)
    (w : World) :
  OPTIONS !! "--config_prod" = Some (VBool config_prod) ->
  parse_options OPTIONS w
    = (Ret (config_class config_prod),
       set_calls (fun cs => (cs ++ [get_config_call (config_class config_prod)])%list) w).
Proof.
  intros H. unfold parse_options, bind, getitem. rewrite H.
  destruct config_prod; reflexivity.
Qed.

Lemma create_all_body (OPTIONS : gmap string Value) (env : Env)
    (config_prod : bool) (w : World) :
  OPTIONS !! "--config_prod" = Some (VBool config_prod) ->
  exists w',
    func_body (create_all OPTIONS env) w = (Ret tt, w') /\
    w_calls w' = (w_calls w ++ create_all_calls config_prod)%list /\
    w_out w' = w_out w.
Proof.
  intros H. unfold create_all. cbn [func_body]. unfold bind at 1.
  rewrite (parse_options_docopt OPTIONS config_prod w H).
  eexists. split; [reflexivity|]. split; [|reflexivity].
  cbn. rewrite <- !app_assoc. reflexivity.
Qed.

(** C6: with the command [create_all], with or without [--config_prod],
    the function chosen is [create_all]; it asks for the configuration,
    builds the application, enters the application context, calls
    [db.create_all()] once and leaves the context; the module then ends
    with exit code 0 without any call that starts a server, a worker or a
    shell. *)
Theorem create_all_once_then_exit (config_prod : bool) (env : Env) (w : World) :
  let OPTIONS := docopt_result "create_all" None None config_prod in
  let r := manage_py OPTIONS env w in
  register OPTIONS (decorated OPTIONS env) {| chosen := None |}
    = inr {| chosen := Some (create_all OPTIONS env) |} /\
  fst r = Ret tt /\ exit_code (fst r) = 0 /\
  w_calls (snd r) = (w_calls w ++ create_all_calls config_prod)%list /\
  length (List.filter is_db_create_all (create_all_calls config_prod)) = 1%nat /\
  List.filter is_server_loop (create_all_calls config_prod) = [] /\
  w_out (snd r) = w_out w.
Proof.
  intros OPTIONS r.
  assert (Hreg : register OPTIONS (decorated OPTIONS env) {| chosen := None |}
                 = inr {| chosen := Some (create_all OPTIONS env) |})
    by reflexivity.
  split; [exact Hreg|].
  assert (Hrun : manage_py OPTIONS env w
                 = func_body (create_all OPTIONS env)
                             (logging_configured false (armed w))).
  { unfold manage_py. rewrite Hreg. subst OPTIONS.
    rewrite (main_docopt "create_all" None None config_prod w). reflexivity. }
  destruct (create_all_body OPTIONS env config_prod
              (logging_configured false (armed w)))
    as (w' & Hbody & Hcalls & Hout); [reflexivity|].
  subst r. rewrite Hrun, Hbody. cbn [fst snd exit_code].
  rewrite Hcalls, Hout. repeat split.
Qed.

(** ** The order of the steps *)

(** C8, as stated, fails when the log directory is the empty path: it
    names no directory and the port is not a number, yet the error
    reported is the one of the port, [setup_logging] having accepted the
    empty value as an absent flag. *)
Lemma empty_log_dir_reports_port_error :
  let r := manage_py (docopt_result "devserver" (Some "abc") (Some "") false)
                     sample_env (initial_world sample_fs) in
  (fs_isdir sample_fs "" = false /\ isdigit "abc" = false /\
   fst r = SysExit 1 /\
   console_lines (snd r) = ["ERROR: Port should be a number."]) /\
  ~ (forall (cmd p d : string) (env : Env) (fs : FS),
        fs_isdir fs d = false -> isdigit p = false ->
        console_lines
          (snd (manage_py (docopt_result cmd (Some p) (Some d) false) env
                          (initial_world fs)))
        = [dir_missing_line d]).
Proof.
  assert (Hrun : manage_py (docopt_result "devserver" (Some "abc") (Some "") false)
                   sample_env (initial_world sample_fs)
                 = (SysExit 1,
                    printed port_error_line
                      (logging_configured false (armed (initial_world sample_fs))))).
  { apply (manage_py_rejected_port "devserver" (Some "abc") (Some "") false
             sample_env (initial_world sample_fs)); reflexivity. }
  split.
  - cbv zeta. rewrite Hrun. repeat split.
  - intros H.
    specialize (H "devserver" "abc" "" sample_env sample_fs eq_refl eq_refl).
    rewrite Hrun in H. discriminate H.
Qed.

(** C8 (amended): once docopt has returned, the steps run in this order:
    the decorators register the command, the SIGINT handler is set,
    logging is configured, the port is checked, the chosen function is
    called.  A non-empty log directory that is missing or not writable
    ends the run with its own error line and exit code 1 whatever the
    port is, before logging is configured; otherwise a port that is not a
    number ends the run with the port error and exit code 1, logging being
    configured and no function called; otherwise the function named by the
    command is called, and it starts in the state where the SIGINT handler
    is set and logging is configured.  An empty log directory value is not
    validated. *)
Theorem steps_in_order
    (cmd : string) (port log_dir : option string) (config_prod : bool)
    (env : Env) (w : World) :
  In cmd commands ->
  let OPTIONS := docopt_result cmd port log_dir config_prod in
  let r := manage_py OPTIONS env w in
  (log_dir_rejected (w_fs w) log_dir = true ->
   r = (SysExit 1, printed (log_dir_error_line (w_fs w) log_dir) (armed w)) /\
   w_root_handlers (snd r) = w_root_handlers w /\
   w_calls (snd r) = w_calls w) /\
  (log_dir_rejected (w_fs w) log_dir = false ->
   isdigit (default "5000" port) = false ->
   r = (SysExit 1,
        printed port_error_line
                (logging_configured (log_to_disk log_dir) (armed w))) /\
   w_calls (snd r) = w_calls w) /\
  (log_dir_rejected (w_fs w) log_dir = false ->
   isdigit (default "5000" port) = true ->
   exists f,
     function_named OPTIONS env cmd = Some f /\
     r = func_body f (logging_configured (log_to_disk log_dir) (armed w))).
Proof.
  intros Hcmd OPTIONS r. split; [|split].
  - intros Hrej. subst r OPTIONS.
    rewrite (manage_py_rejected_log_dir cmd port log_dir config_prod env w Hrej).
    repeat split.
  - intros Hrej Hd. subst r OPTIONS.
    rewrite (manage_py_rejected_port cmd port log_dir config_prod env w Hrej Hd).
    repeat split.
  - intros Hrej Hd.
    destruct (manage_py_dispatch cmd port log_dir config_prod env w Hcmd Hrej Hd)
      as (f & Hf & _ & _ & _ & Hrun).
    exists f. split; [exact Hf|exact Hrun].
Qed.

Lemma steps_in_order_witness :
  (manage_py (docopt_result "devserver" (Some "abc") (Some "/nonexistent") false)
             sample_env (initial_world sample_fs)
   = (SysExit 1,
      printed "ERROR: Directory /nonexistent does not exist."
              (armed (initial_world sample_fs)))) /\
  (manage_py (docopt_result "devserver" (Some "abc") (Some "/var/log") false)
             sample_env (initial_world sample_fs)
   = (SysExit 1,
      printed port_error_line
              (logging_configured true (armed (initial_world sample_fs))))) /\
  (exists f,
     function_named (docopt_result "devserver" (Some "8080") (Some "/var/log") false)
                    sample_env "devserver" = Some f /\
     manage_py (docopt_result "devserver" (Some "8080") (Some "/var/log") false)
               sample_env (initial_world sample_fs)
     = func_body f (logging_configured true (armed (initial_world sample_fs)))).
Proof.
  assert (Hcmd : In "devserver" commands) by (unfold commands; cbn [In]; tauto).
  split; [|split].
  - apply (steps_in_order "devserver" (Some "abc") (Some "/nonexistent") false
             sample_env (initial_world sample_fs) Hcmd).
    reflexivity.
  - apply (proj1 (proj2 (steps_in_order "devserver" (Some "abc")
                           (Some "/var/log") false sample_env
                           (initial_world sample_fs) Hcmd)));
      reflexivity.
  - apply (proj2 (proj2 (steps_in_order "devserver" (Some "8080")
                           (Some "/var/log") false sample_env
                           (initial_world sample_fs) Hcmd)));
      reflexivity.
Defined.

(** ** int() of a validated port *)

Lemma is_digit_not_space (c : ascii) : is_digit c = true -> is_space c = false.
Proof.
  unfold is_digit, is_space. intros H.
  apply andb_true_iff in H as [H1 H2].
  apply Z.leb_le in H1. apply Z.leb_le in H2.
  apply orb_false_iff. split.
  - apply Z.eqb_neq. lia.
  - apply andb_false_iff. right. apply Z.leb_gt. lia.
Qed.

Lemma lstrip_digits (l : list ascii) :
  Forall (fun c => is_digit c = true) l -> lstrip l = l.
Proof.
  intros [|c l' Hc _]; [reflexivity|].
  simpl. now rewrite (is_digit_not_space c Hc).
Qed.

Lemma strip_digits (l : list ascii) :
  Forall (fun c => is_digit c = true) l -> strip l = l.
Proof.
  intros H. unfold strip. rewrite (lstrip_digits l H).
  rewrite lstrip_digits; [apply rev_involutive|].
  apply List.Forall_forall. intros c Hc. apply in_rev in Hc.
  rewrite List.Forall_forall in H. now apply H.
Qed.

Lemma digits_value_digits (l : list ascii) :
  Forall (fun c => is_digit c = true) l ->
  forall acc, (0 <= acc)%Z ->
  exists n, digits_value acc l = Some n /\ (acc <= n)%Z.
Proof.
  induction 1 as [|c l Hc _ IH]; intros acc Hacc; simpl.
  - exists acc. split; [reflexivity|lia].
  - rewrite Hc.
    assert (Hd : (48 <= Z.of_nat (nat_of_ascii c))%Z).
    { unfold is_digit in Hc. apply andb_true_iff in Hc as [Hc _].
      now apply Z.leb_le in Hc. }
    destruct (IH (10 * acc + (Z.of_nat (nat_of_ascii c) - 48))%Z)
      as (n & Hn & Hle); [lia|].
    exists n. split; [exact Hn|lia].
Qed.

Lemma python_int_digits (s : string) :
  isdigit s = true -> exists n, python_int s = inr n /\ (0 <= n)%Z.
Proof.
  intros H. apply isdigit_spec in H as [Hne Hall].
  assert (HF : Forall (fun c => is_digit c = true) (list_ascii_of_string s)).
  { apply List.Forall_forall. intros c Hc. now apply Hall. }
  unfold python_int. rewrite (strip_digits _ HF).
  destruct s as [|c s]; [congruence|]. cbn [list_ascii_of_string].
  assert (Hc : is_digit c = true) by (apply Hall; now left).
  destruct (Ascii.eqb_spec c "+") as [->|_]; [discriminate Hc|].
  destruct (Ascii.eqb_spec c "-") as [->|_]; [discriminate Hc|].
  destruct (digits_value_digits _ HF 0%Z) as (n & Hn & Hle); [lia|].
  cbn [list_ascii_of_string] in Hn. rewrite Hn. now exists n.
Qed.

(** ** Logging makes no call into the frameworks *)

Lemma logs_only_ret : logs_only (ret tt).
Proof. intros w. now exists w. Qed.

Lemma logs_only_seq (m k : M unit) :
  logs_only m -> logs_only k -> logs_only (m >> k).
Proof.
  intros Hm Hk w. destruct (Hm w) as (w1 & E1 & C1).
  destruct (Hk w1) as (w2 & E2 & C2).
  exists w2. unfold bind. rewrite E1, E2. split; [reflexivity|congruence].
Qed.

Lemma logs_only_emit (h : Handler) (r : LogRecord) : logs_only (emit h r).
Proof.
  intros w. unfold emit. destruct (Handler_format h r); eexists; split;
    reflexivity.
Qed.

Lemma logs_only_callHandlers (hs : list Handler) (r : LogRecord) :
  logs_only (callHandlers hs r).
Proof.
  induction hs as [|h hs IH]; cbn [callHandlers].
  - apply logs_only_ret.
  - apply logs_only_seq; [|exact IH].
    destruct (h_level h <=? levelno r)%Z;
      [apply logs_only_emit|apply logs_only_ret].
Qed.

Lemma logs_only_log_record (r : LogRecord) : logs_only (log_record r).
Proof.
  intros w. unfold log_record.
  destruct (w_root_level w <=? levelno r)%Z.
  - apply logs_only_callHandlers.
  - now exists w.
Qed.

Create HintDb logs.
#[local] Hint Resolve logs_only_ret logs_only_seq logs_only_log_record : logs.

Lemma logs_only_log_messages (env : Env) (app : App) (port : Value)
    (fsh_folder : string) :
  logs_only (log_messages env app port fsh_folder).
Proof.
  unfold log_messages, log_info. auto 10 with logs.
Qed.


(** ** The two web servers *)

Section Servers.

Variables (OPTIONS : gmap string Value) (env : Env).
Variables (config_prod : bool) (s fsh_folder : string).

Let app := env_create_app env (config_class config_prod) false.

Hypothesis Hconfig : OPTIONS !! "--config_prod" = Some (VBool config_prod).
Hypothesis Hport : OPTIONS !! "--port" = Some (VStr s).
Hypothesis Hfsh : app_blueprints app !! "flask_statics_helper" = Some fsh_folder.

Lemma devserver_body (n : Z) (w : World) :
  python_int s = inr n ->
  exists w',
    func_body (devserver OPTIONS env) w = (Ret tt, w') /\
    w_calls w' =
      (w_calls w ++ [get_config_call (config_class config_prod);
                     create_app_call (config_class config_prod) false;
                     app_run_call "0.0.0.0" n])%list.
Proof.
  intros Hint. unfold devserver. cbn [func_body]. unfold bind at 1.
  rewrite (parse_options_docopt OPTIONS config_prod w Hconfig).
  unfold bind at 1. unfold create_app at 1. unfold bind at 1, call at 1, ret at 1.
  fold app. unfold bind at 1, fsh_static_folder at 1. rewrite Hfsh.
  unfold ret at 1. unfold bind at 1, getitem at 1. rewrite Hport.
  unfold ret at 1. unfold bind at 1.
  match goal with
  | |- context [log_messages env app (VStr s) fsh_folder ?w0] =>
      destruct (logs_only_log_messages env app (VStr s) fsh_folder w0)
        as (w1 & E1 & C1)
  end.
  rewrite E1. unfold bind at 1, getitem at 1. rewrite Hport.
  unfold ret at 1. unfold bind at 1, Value_int, lift. rewrite Hint.
  unfold ret at 1, call.
  eexists. split; [reflexivity|].
  cbn [w_calls set_calls]. rewrite C1. cbn [w_calls set_calls].
  rewrite <- !app_assoc. reflexivity.
Qed.

Lemma tornadoserver_body (w : World) :
  exists w',
    func_body (tornadoserver OPTIONS env) w = (Ret tt, w') /\
    w_calls w' =
      (w_calls w ++ [get_config_call (config_class config_prod);
                     create_app_call (config_class config_prod) false;
                     wsgi_container_call;
                     web_application_call fsh_folder (app_static_folder app);
                     http_server_call;
                     http_server_bind_call (VStr s);
                     http_server_start_call 0;
                     ioloop_start_call])%list.
Proof.
  unfold tornadoserver. cbn [func_body]. unfold bind at 1.
  rewrite (parse_options_docopt OPTIONS config_prod w Hconfig).
  unfold bind at 1. unfold create_app at 1. unfold bind at 1, call at 1, ret at 1.
  fold app. unfold bind at 1, fsh_static_folder at 1. rewrite Hfsh.
  unfold ret at 1. unfold bind at 1, getitem at 1. rewrite Hport.
  unfold ret at 1. unfold bind at 1.
  match goal with
  | |- context [log_messages env app (VStr s) fsh_folder ?w0] =>
      destruct (logs_only_log_messages env app (VStr s) fsh_folder w0)
        as (w1 & E1 & C1)
  end.
  rewrite E1. unfold bind, call, getitem. rewrite Hport. unfold ret.
  eexists. split; [reflexivity|].
  cbn [w_calls set_calls]. rewrite C1. cbn [w_calls set_calls].
  rewrite <- !app_assoc. reflexivity.
Qed.

End Servers.

(** C10: the port check is [str.isdigit]: it holds exactly for the
    non-empty strings made of decimal digits, and no range is checked.
    A port that fails it ends the run with the port error and exit code 1;
    a port that passes is converted by [int] and handed to [app.run] by
    [devserver], and handed as it is to [http_server.bind] by
    [tornadoserver].  So ['0'] and ['65536'] reach the server, while
    ['-1'], ['+5'] and the empty string are rejected. *)
Theorem port_check_is_isdigit :
  (forall s : string,
      isdigit s = true <->
      s <> "" /\ forall c, In c (list_ascii_of_string s) -> is_digit c = true) /\
  (forall (cmd s : string) (config_prod : bool) (env : Env) (w : World),
      isdigit s = false ->
      let r := manage_py (docopt_result cmd (Some s) None config_prod) env w in
      r = (SysExit 1, printed port_error_line (logging_configured false (armed w)))
      /\ exit_code (fst r) = 1 /\ w_calls (snd r) = w_calls w) /\
  (forall (s fsh_folder : string) (config_prod : bool) (env : Env) (w : World),
      isdigit s = true ->
      app_blueprints (env_create_app env (config_class config_prod) false)
        !! "flask_statics_helper" = Some fsh_folder ->
      exists n,
        python_int s = inr n /\ (0 <= n)%Z /\
        (exists w',
            manage_py (docopt_result "devserver" (Some s) None config_prod) env w
              = (Ret tt, w') /\
            w_calls w' =
              (w_calls w ++ [get_config_call (config_class config_prod);
                             create_app_call (config_class config_prod) false;
                             app_run_call "0.0.0.0" n])%list) /\
        (exists w',
            manage_py (docopt_result "tornadoserver" (Some s) None config_prod) env w
              = (Ret tt, w') /\
            In (http_server_bind_call (VStr s)) (w_calls w'))) /\
  (isdigit "0" = true /\ python_int "0" = inr 0%Z /\
   isdigit "65536" = true /\ python_int "65536" = inr 65536%Z /\
   isdigit "-1" = false /\ isdigit "+5" = false /\ isdigit "" = false).
Proof.
  split; [exact isdigit_spec|]. split; [|split].
  - intros cmd s config_prod env w Hd r. subst r.
    rewrite (manage_py_rejected_port cmd (Some s) None config_prod env w
               eq_refl Hd).
    repeat split.
  - intros s fsh_folder config_prod env w Hd Hfsh.
    destruct (python_int_digits s Hd) as (n & Hn & Hpos).
    exists n. split; [exact Hn|]. split; [exact Hpos|]. split.
    + assert (Hrun : manage_py (docopt_result "devserver" (Some s) None config_prod)
                       env w
                     = func_body (devserver (docopt_result "devserver" (Some s)
                                               None config_prod) env)
                                 (logging_configured false (armed w))).
      { unfold manage_py.
        replace (register _ _ _) with
          (inr (B := CommandAttrs) (A := Exn)
             {| chosen := Some (devserver (docopt_result "devserver" (Some s)
                                             None config_prod) env) |})
          by reflexivity.
        rewrite main_docopt. cbn [log_dir_rejected].
        change (default "5000" (Some s)) with s. rewrite Hd. reflexivity. }
      rewrite Hrun.
      destruct (devserver_body (docopt_result "devserver" (Some s) None
                                  config_prod)
                  env config_prod s fsh_folder eq_refl eq_refl Hfsh n
                  (logging_configured false (armed w)) Hn) as (w' & E & C).
      exists w'. split; [exact E|exact C].
    + assert (Hrun : manage_py (docopt_result "tornadoserver" (Some s) None
                                  config_prod) env w
                     = func_body (tornadoserver (docopt_result "tornadoserver"
                                                   (Some s) None config_prod) env)
                                 (logging_configured false (armed w))).
      { unfold manage_py.
        replace (register _ _ _) with
          (inr (B := CommandAttrs) (A := Exn)
             {| chosen := Some (tornadoserver (docopt_result "tornadoserver"
                                                 (Some s) None config_prod) env) |})
          by reflexivity.
        rewrite main_docopt. cbn [log_dir_rejected].
        change (default "5000" (Some s)) with s. rewrite Hd. reflexivity. }
      rewrite Hrun.
      destruct (tornadoserver_body (docopt_result "tornadoserver" (Some s) None
                                      config_prod)
                  env config_prod s fsh_folder eq_refl eq_refl Hfsh
                  (logging_configured false (armed w))) as (w' & E & C).
      exists w'. split; [exact E|]. rewrite C. apply in_or_app. right.
      cbn [In]. tauto.
  - repeat split; reflexivity.
Qed.

Lemma port_check_is_isdigit_witness :
  (let r := manage_py (docopt_result "devserver" (Some "-1") None false)
                      sample_env (initial_world sample_fs) in
   r = (SysExit 1,
        printed port_error_line
                (logging_configured false (armed (initial_world sample_fs))))
   /\ exit_code (fst r) = 1 /\ w_calls (snd r) = []) /\
  (exists n,
      python_int "65536" = inr n /\ (0 <= n)%Z /\
      (exists w',
          manage_py (docopt_result "devserver" (Some "65536") None false)
                    sample_env (initial_world sample_fs) = (Ret tt, w') /\
          w_calls w' = [get_config_call (config_class false);
                        create_app_call (config_class false) false;
                        app_run_call "0.0.0.0" n]) /\
      (exists w',
          manage_py (docopt_result "tornadoserver" (Some "65536") None false)
                    sample_env (initial_world sample_fs) = (Ret tt, w') /\
          In (http_server_bind_call (VStr "65536")) (w_calls w'))).
Proof.
  destruct port_check_is_isdigit as (_ & Hreject & Haccept & _).
  split.
  - apply (Hreject "devserver" "-1" false sample_env (initial_world sample_fs)).
    reflexivity.
  - apply (Haccept "65536" "/srv/fsh" false sample_env (initial_world sample_fs));
      reflexivity.
Defined.

(** * Further properties *)

(** ** The layout of a log line *)

Lemma append_empty_r (s : string) : s ++ "" = s.
Proof.
  induction s as [|c s IH]; [reflexivity|].
  change (String c (s ++ "") = String c s). now rewrite IH.
Qed.

Lemma strftime_glog (t : struct_time) :
  strftime (datefmt glog_formatter) t = glog_time t.
Proof.
  unfold glog_time. cbn [datefmt glog_formatter strftime Ascii.eqb Bool.eqb].
  cbn [append]. now rewrite append_empty_r.
Qed.

Lemma percent_format_glog (r : LogRecord) (letter asctime : string) :
  percent_format (S (String.length (fmt glog_formatter))) (fmt glog_formatter)
                 (record_dict r (Some letter) asctime)
  = inr (letter ++ asctime ++ "." ++ dec (msecs r) ++ " "
         ++ dec (process r) ++ " " ++ filename r ++ ":" ++ dec (lineno r)
         ++ "] " ++ message r ++ "").
Proof. vm_compute. reflexivity. Qed.

Lemma glog_format_line_aux (r : LogRecord) (letter : string) :
  Formatter_format glog_formatter r (Some letter) = inr (glog_line letter r).
Proof.
  unfold Formatter_format. rewrite strftime_glog, percent_format_glog.
  now rewrite append_empty_r.
Qed.

(** X1: for a record at one of the five standard levels the formatter of
    [setup_logging] returns the severity letter of the level followed by
    month, day, time, milliseconds, process id, file, line and message in
    the glog layout. *)
Theorem glog_format_line (r : LogRecord) (letter : string) :
  LEVEL_MAP !! levelno r = Some letter ->
  CustomFormatter_format glog_formatter r = inr (glog_line letter r).
Proof.
  intros H. unfold CustomFormatter_format. rewrite H.
  apply glog_format_line_aux.
Qed.

Lemma glog_format_line_witness :
  CustomFormatter_format glog_formatter (sample_record logging.WARN)
  = inr "W0314 01:59:26.535 4242 manage.py:108] Server is running".
Proof.
  apply (glog_format_line (sample_record logging.WARN) "W").
  reflexivity.
Defined.

(** ** One console handler *)

Lemma standard_level_ge_DEBUG (r : LogRecord) (letter : string) :
  LEVEL_MAP !! levelno r = Some letter -> (logging.DEBUG <= levelno r)%Z.
Proof.
  rewrite LEVEL_MAP_lookup.
  unfold logging.DEBUG, logging.INFO, logging.WARN, logging.ERROR,
    logging.FATAL.
  repeat case_decide; try discriminate; lia.
Qed.

Lemma emit_returns (h : Handler) (r : LogRecord) (w : World) :
  fst (emit h r w) = Ret tt.
Proof. unfold emit. now destruct (Handler_format h r). Qed.

Lemma log_record_reaches (b : bool) (r : LogRecord) (w : World) :
  configured b w ->
  (logging.DEBUG <= levelno r)%Z ->
  (h_level (console_handler b) <= levelno r)%Z ->
  log_record r w = emit (console_handler b) r w.
Proof.
  intros [Hlevel Hhs] Hroot Hh. unfold log_record. rewrite Hlevel, Hhs.
  apply Z.leb_le in Hroot. rewrite Hroot. cbn [callHandlers]. unfold bind.
  apply Z.leb_le in Hh. rewrite Hh.
  pose proof (emit_returns (console_handler b) r w) as He.
  destruct (emit (console_handler b) r w) as [o w']. cbn [fst] in He.
  now subst o.
Qed.

Lemma log_record_filtered (b : bool) (r : LogRecord) (w : World) :
  configured b w ->
  (levelno r < h_level (console_handler b))%Z ->
  log_record r w = (Ret tt, w).
Proof.
  intros [Hlevel Hhs] Hh. unfold log_record. rewrite Hlevel, Hhs.
  destruct (logging.DEBUG <=? levelno r)%Z; [|reflexivity].
  cbn [callHandlers]. unfold bind. apply Z.leb_gt in Hh. now rewrite Hh.
Qed.

Lemma emit_standard (b : bool) (r : LogRecord) (letter : string) (w : World) :
  LEVEL_MAP !! levelno r = Some letter ->
  emit (console_handler b) r w = (Ret tt, printed (glog_line letter r) w).
Proof.
  intros H. unfold emit, Handler_format. cbn [h_formatter console_handler].
  unfold CustomFormatter_format. rewrite H, glog_format_line_aux.
  reflexivity.
Qed.

Lemma configured_printed (b : bool) (line : string) (w : World) :
  configured b w -> configured b (printed line w).
Proof. intros [H1 H2]. split; assumption. Qed.

Lemma configured_call (b : bool) (c : Call) (w : World) :
  configured b w -> configured b (set_calls (fun cs => (cs ++ [c])%list) w).
Proof. intros [H1 H2]. split; assumption. Qed.

Lemma configured_ready (log_dir : option string) (w : World) :
  w_root_handlers w = [] -> configured (log_to_disk log_dir) (ready log_dir w).
Proof.
  intros H. split; [reflexivity|].
  unfold ready, logging_configured. cbn [w_root_handlers set_root_handlers
    set_root_level armed set_sigint]. now rewrite H.
Qed.

(** [log.info] with the console handler alone. *)
Lemma log_info_console (b : bool) (env : Env) (line : Z) (msg : string)
    (w : World) :
  configured b w ->
  log_info env line msg w =
    (Ret tt, if b then w else printed (glog_line "I" (info_record env line msg)) w).
Proof.
  intros Hc. unfold log_info. fold (info_record env line msg).
  destruct b.
  - apply (log_record_filtered true); [exact Hc|].
    cbn. unfold logging.INFO, logging.ERROR. lia.
  - rewrite (log_record_reaches false); [|exact Hc|cbn; unfold logging.INFO, logging.DEBUG; lia..].
    now apply emit_standard.
Qed.

Lemma log_messages_console (b : bool) (env : Env) (app : App) (port : Value)
    (fsh_folder : string) (w : World) :
  configured b w ->
  exists w',
    log_messages env app port fsh_folder w = (Ret tt, w') /\
    configured b w' /\
    w_out w' = (w_out w ++ log_messages_output b env app port fsh_folder)%list /\
    w_calls w' = w_calls w /\
    w_handle_errors w' = w_handle_errors w.
Proof.
  intros Hc. unfold log_messages, log_messages_output, log_messages_records.
  unfold bind. destruct b.
  - rewrite !(log_info_console true) by exact Hc.
    exists w. rewrite app_nil_r. auto.
  - repeat (rewrite (log_info_console false);
            [|repeat apply configured_printed; exact Hc]).
    eexists. split; [reflexivity|]. split.
    + repeat apply configured_printed. exact Hc.
    + cbn [map]. unfold printed. cbn [w_out w_calls w_handle_errors set_out].
      rewrite <- !app_assoc. auto.
Qed.

(** ** The web servers, from the first call to the last *)

Section ServerRuns.

Variables (OPTIONS : gmap string Value) (env : Env).
Variables (config_prod b : bool) (s : string) (w : World).

Let app := env_create_app env (config_class config_prod) false.

Hypothesis Hconfig : OPTIONS !! "--config_prod" = Some (VBool config_prod).
Hypothesis Hport : OPTIONS !! "--port" = Some (VStr s).

(** The state after [create_app(parse_options())]. *)
Let created_world : World :=
  set_calls (fun cs => (cs ++ [create_app_call (config_class config_prod) false])%list)
    (set_calls (fun cs => (cs ++ [get_config_call (config_class config_prod)])%list) w).

Lemma created_world_calls :
  w_calls created_world = (w_calls w ++ app_calls config_prod false)%list.
Proof.
  unfold created_world, app_calls. cbn [w_calls set_calls].
  now rewrite <- app_assoc.
Qed.

Lemma devserver_run (fsh_folder : string) (n : Z) :
  app_blueprints app !! "flask_statics_helper" = Some fsh_folder ->
  python_int s = inr n ->
  configured b w ->
  exists w',
    func_body (devserver OPTIONS env) w = (Ret tt, w') /\
    w_out w' = (w_out w ++ log_messages_output b env app (VStr s) fsh_folder)%list /\
    w_calls w' = (w_calls w ++ devserver_calls config_prod n)%list /\
    w_handle_errors w' = w_handle_errors w.
Proof.
  intros Hfsh Hint Hc. unfold devserver. cbn [func_body]. unfold bind at 1.
  rewrite (parse_options_docopt OPTIONS config_prod w Hconfig).
  unfold bind at 1. unfold create_app at 1. unfold bind at 1, call at 1, ret at 1.
  fold app. fold created_world.
  unfold bind at 1, fsh_static_folder at 1. rewrite Hfsh.
  unfold ret at 1. unfold bind at 1, getitem at 1. rewrite Hport.
  unfold ret at 1. unfold bind at 1.
  destruct (log_messages_console b env app (VStr s) fsh_folder created_world)
    as (w1 & E1 & _ & O1 & C1 & H1).
  { unfold created_world. now repeat apply configured_call. }
  rewrite E1. unfold bind at 1, getitem at 1. rewrite Hport.
  unfold ret at 1. unfold bind at 1, Value_int, lift. rewrite Hint.
  unfold ret at 1, call.
  eexists. split; [reflexivity|].
  cbn [w_out w_calls w_handle_errors set_calls].
  rewrite O1, C1, H1, created_world_calls. unfold devserver_calls.
  rewrite <- app_assoc. auto.
Qed.


Lemma webserver_without_blueprint :
  app_blueprints app !! "flask_statics_helper" = None ->
  func_body (devserver OPTIONS env) w
    = (Raised (KeyError "flask_statics_helper"), created_world) /\
  func_body (tornadoserver OPTIONS env) w
    = (Raised (KeyError "flask_statics_helper"), created_world).
Proof.
  intros Hfsh. unfold devserver, tornadoserver. cbn [func_body].
  split; unfold bind at 1;
    rewrite (parse_options_docopt OPTIONS config_prod w Hconfig);
    unfold bind at 1; unfold create_app at 1;
    unfold bind at 1, call at 1, ret at 1; fold app; fold created_world;
    unfold bind at 1, fsh_static_folder at 1; rewrite Hfsh; reflexivity.
Qed.

End ServerRuns.

Lemma manage_py_runs (cmd : string) (port log_dir : option string)
    (config_prod : bool) (env : Env) (w : World) (f : Func) :
  In cmd commands ->
  function_named (docopt_result cmd port log_dir config_prod) env cmd = Some f ->
  log_dir_rejected (w_fs w) log_dir = false ->
  isdigit (default "5000" port) = true ->
  manage_py (docopt_result cmd port log_dir config_prod) env w
    = func_body f (ready log_dir w).
Proof.
  intros Hcmd Hf Hrej Hd.
  destruct (manage_py_dispatch cmd port log_dir config_prod env w Hcmd Hrej Hd)
    as (f' & Hf' & _ & _ & _ & Hrun).
  rewrite Hf in Hf'. injection Hf' as <-. exact Hrun.
Qed.

Ltac in_commands := unfold commands; cbn [In]; tauto.

(** X2: [devserver] in a process whose root logger has no handler yet,
    with an accepted log directory and a numeric port: the run returns
    after the calls get_config, create_app and [app.run] on 0.0.0.0 with
    the port as an integer; without a log directory the five lines of
    [log_messages] are on the console, in order, before the server
    starts, and with a log directory nothing at all is written. *)
Theorem devserver_start
    (port log_dir : option string) (config_prod : bool) (env : Env)
    (w : World) (fsh_folder : string) :
  let app := env_create_app env (config_class config_prod) false in
  let p := default "5000" port in
  w_root_handlers w = [] ->
  log_dir_rejected (w_fs w) log_dir = false ->
  isdigit p = true ->
  app_blueprints app !! "flask_statics_helper" = Some fsh_folder ->
  exists n w',
    python_int p = inr n /\
    manage_py (docopt_result "devserver" port log_dir config_prod) env w
      = (Ret tt, w') /\
    w_out w' = (w_out w ++ log_messages_output (log_to_disk log_dir) env app
                             (VStr p) fsh_folder)%list /\
    w_calls w' = (w_calls w ++ devserver_calls config_prod n)%list.
Proof.
  intros app p Hfresh Hrej Hd Hfsh.
  destruct (python_int_digits p Hd) as (n & Hn & _).
  rewrite (manage_py_runs "devserver" port log_dir config_prod env w
             (devserver (docopt_result "devserver" port log_dir config_prod) env));
    [|in_commands|reflexivity|exact Hrej|exact Hd].
  destruct (devserver_run (docopt_result "devserver" port log_dir config_prod)
              env config_prod (log_to_disk log_dir) p (ready log_dir w)
              eq_refl eq_refl fsh_folder n Hfsh Hn
              (configured_ready log_dir w Hfresh))
    as (w' & E & O & C & _).
  exists n, w'. repeat split; assumption.
Qed.

Lemma devserver_start_witness :
  exists n w',
    python_int "8080" = inr n /\
    manage_py (docopt_result "devserver" (Some "8080") None false) sample_env
              (initial_world sample_fs) = (Ret tt, w') /\
    w_out w' = log_messages_output false sample_env sample_app (VStr "8080")
                                   "/srv/fsh" /\
    w_calls w' = devserver_calls false n.
Proof.
  apply (devserver_start (Some "8080") None false sample_env
           (initial_world sample_fs) "/srv/fsh"); reflexivity.
Defined.



(** X4: when the application has no blueprint called
    [flask_statics_helper], [devserver] and [tornadoserver] raise KeyError
    right after [create_app]: the exit code is 1, no line of
    [log_messages] is written and no server is started. *)
Theorem webserver_requires_statics_blueprint
    (cmd : string) (port log_dir : option string) (config_prod : bool)
    (env : Env) (w : World) :
  cmd = "devserver" \/ cmd = "tornadoserver" ->
  log_dir_rejected (w_fs w) log_dir = false ->
  isdigit (default "5000" port) = true ->
  app_blueprints (env_create_app env (config_class config_prod) false)
    !! "flask_statics_helper" = None ->
  let r := manage_py (docopt_result cmd port log_dir config_prod) env w in
  fst r = Raised (KeyError "flask_statics_helper") /\
  exit_code (fst r) = 1 /\
  w_out (snd r) = w_out w /\
  w_calls (snd r) = (w_calls w ++ app_calls config_prod false)%list.
Proof.
  intros Hcmd Hrej Hd Hfsh r. subst r.
  destruct Hcmd as [-> | ->].
  - rewrite (manage_py_runs "devserver" port log_dir config_prod env w
               (devserver (docopt_result "devserver" port log_dir config_prod) env));
      [|in_commands|reflexivity|exact Hrej|exact Hd].
    destruct (webserver_without_blueprint
                (docopt_result "devserver" port log_dir config_prod) env
                config_prod (ready log_dir w) eq_refl Hfsh) as [-> _].
    cbn [fst snd exit_code w_out w_calls set_calls]. repeat split.
    unfold app_calls. now rewrite <- app_assoc.
  - rewrite (manage_py_runs "tornadoserver" port log_dir config_prod env w
               (tornadoserver (docopt_result "tornadoserver" port log_dir
                                 config_prod) env));
      [|in_commands|reflexivity|exact Hrej|exact Hd].
    destruct (webserver_without_blueprint
                (docopt_result "tornadoserver" port log_dir config_prod) env
                config_prod (ready log_dir w) eq_refl Hfsh) as [_ ->].
    cbn [fst snd exit_code w_out w_calls set_calls]. repeat split.
    unfold app_calls. now rewrite <- app_assoc.
Qed.

Lemma webserver_requires_statics_blueprint_witness :
  let r := manage_py (docopt_result "tornadoserver" None None false) bare_env
                     (initial_world sample_fs) in
  fst r = Raised (KeyError "flask_statics_helper") /\
  exit_code (fst r) = 1 /\
  w_out (snd r) = [] /\
  w_calls (snd r) = app_calls false false.
Proof.
  apply (webserver_requires_statics_blueprint "tornadoserver" None None false
           bare_env (initial_world sample_fs)).
  - now right.
  - reflexivity.
  - reflexivity.
  - reflexivity.
Defined.

(** ** Celery and the shell *)

Lemma celery_command_run (OPTIONS : gmap string Value) (env : Env)
    (config_prod : bool) (name : string) (celery_args : list string)
    (w : World) :
  OPTIONS !! "--config_prod" = Some (VBool config_prod) ->
  exists w',
    func_body (celery_command OPTIONS env name celery_args) w = (Ret tt, w') /\
    w_calls w' = (w_calls w ++ celery_calls config_prod celery_args)%list /\
    w_out w' = w_out w.
Proof.
  intros H. unfold celery_command. cbn [func_body]. unfold bind at 1.
  rewrite (parse_options_docopt OPTIONS config_prod w H).
  eexists. split; [reflexivity|]. split; [|reflexivity].
  cbn. unfold celery_calls, app_calls. rewrite <- !app_assoc. reflexivity.
Qed.

Lemma shell_run (OPTIONS : gmap string Value) (env : Env)
    (config_prod : bool) (w : World) :
  OPTIONS !! "--config_prod" = Some (VBool config_prod) ->
  exists w',
    func_body (shell OPTIONS env) w = (Ret tt, w') /\
    w_calls w' = (w_calls w ++ shell_calls config_prod)%list /\
    w_out w' = w_out w.
Proof.
  intros H. unfold shell. cbn [func_body]. unfold bind at 1.
  rewrite (parse_options_docopt OPTIONS config_prod w H).
  eexists. split; [reflexivity|]. split; [|reflexivity].
  cbn. unfold shell_calls, app_calls. rewrite <- !app_assoc. reflexivity.
Qed.

Ltac celery_body :=
  unfold celerydev, celerybeat, celeryworker;
  match goal with
  | |- context [func_body (celery_command ?O ?env ?n ?a) ?w0] =>
      let w' := fresh "w'" in
      let E := fresh "E" in
      let C := fresh "C" in
      let O' := fresh "O" in
      destruct (celery_command_run O env _ n a w0 (docopt_config_prod _ _ _ _))
        as (w' & E & C & O');
      exists w'; split; [exact E|]; split; [exact C|exact O']
  end.

(** X5: each of the three Celery commands, with an accepted log
    directory, builds the application with [no_sql=True], sets
    [Logging._setup] before Celery starts, and calls [celery_main] inside
    the application context with its own argument list: worker with beat
    for [celerydev], beat for [celerybeat], an autoscaled worker for
    [celeryworker].  Nothing is written by the module itself. *)
Theorem celery_commands_run
    (log_dir : option string) (config_prod : bool) (env : Env) (w : World) :
  log_dir_rejected (w_fs w) log_dir = false ->
  runs_quietly "celerydev" None log_dir config_prod env w
    (celery_calls config_prod
       ["celery"; "worker"; "-B"; "-s"; "/tmp/celery.db"; "--concurrency=5"]) /\
  runs_quietly "celerybeat" None log_dir config_prod env w
    (celery_calls config_prod
       ["celery"; "beat"; "-C"; "--pidfile=celery_beat.pid"]) /\
  runs_quietly "celeryworker" None log_dir config_prod env w
    (celery_calls config_prod
       ["celery"; "worker"; "-C"; "--autoscale=10,1"; "--without-gossip"]).
Proof.
  intros Hrej. unfold runs_quietly. split; [|split].
  - rewrite (manage_py_runs "celerydev" None log_dir config_prod env w
               (celerydev (docopt_result "celerydev" None log_dir config_prod) env));
      [|in_commands|reflexivity|exact Hrej|reflexivity].
    celery_body.
  - rewrite (manage_py_runs "celerybeat" None log_dir config_prod env w
               (celerybeat (docopt_result "celerybeat" None log_dir config_prod) env));
      [|in_commands|reflexivity|exact Hrej|reflexivity].
    celery_body.
  - rewrite (manage_py_runs "celeryworker" None log_dir config_prod env w
               (celeryworker (docopt_result "celeryworker" None log_dir config_prod) env));
      [|in_commands|reflexivity|exact Hrej|reflexivity].
    celery_body.
Qed.

Lemma celery_commands_run_witness :
  runs_quietly "celerybeat" None (Some "/var/log") true sample_env
    (initial_world sample_fs)
    (celery_calls true ["celery"; "beat"; "-C"; "--pidfile=celery_beat.pid"]).
Proof.
  apply (celery_commands_run (Some "/var/log") true sample_env
           (initial_world sample_fs)).
  reflexivity.
Defined.

(** X6: [shell] builds the application, pushes an application context
    that it never pops, and runs the interactive shell; it is the last
    call of the run and the module writes nothing. *)
Theorem shell_pushes_context_and_runs (config_prod : bool) (env : Env)
    (w : World) :
  runs_quietly "shell" None None config_prod env w (shell_calls config_prod)
  /\ ~ In app_context_exit (shell_calls config_prod)
  /\ last (shell_calls config_prod) = Some shell_run_call.
Proof.
  split; [|split].
  - unfold runs_quietly.
    rewrite (manage_py_runs "shell" None None config_prod env w
               (shell (docopt_result "shell" None None config_prod) env));
      [|in_commands|reflexivity..].
    destruct (shell_run (docopt_result "shell" None None config_prod) env
                config_prod (ready None w) eq_refl) as (w' & E & C & O).
    exists w'. split; [exact E|]. split; [exact C|exact O].
  - unfold shell_calls, app_calls. cbn [In app]. intuition discriminate.
  - reflexivity.
Qed.

(** ** Every command builds the application first *)

(** X7: whatever the command, once both validations have passed the
    first two calls of the run are [get_config] with the class that
    [--config_prod] selects (Production when set, Config otherwise) and
    [create_app] with that configuration, where [no_sql] is true exactly
    for the three Celery commands. *)
Theorem every_command_builds_app
    (cmd : string) (port log_dir : option string) (config_prod : bool)
    (env : Env) (w : World) :
  In cmd commands ->
  log_dir_rejected (w_fs w) log_dir = false ->
  isdigit (default "5000" port) = true ->
  exists rest,
    w_calls (snd (manage_py (docopt_result cmd port log_dir config_prod) env w))
    = (w_calls w ++ app_calls config_prod (is_celery cmd) ++ rest)%list.
Proof.
  intros Hcmd Hrej Hd.
  pose proof (python_int_digits _ Hd) as (n & Hn & _).
  unfold commands in Hcmd. cbn [In] in Hcmd.
  destruct Hcmd as [<-|[<-|[<-|[<-|[<-|[<-|[<-|[]]]]]]]].
  - rewrite (manage_py_runs "devserver" port log_dir config_prod env w
               (devserver (docopt_result "devserver" port log_dir config_prod) env));
      [|in_commands|reflexivity|exact Hrej|exact Hd].
    destruct (app_blueprints (env_create_app env (config_class config_prod) false)
                !! "flask_statics_helper") as [fsh|] eqn:Hfsh.
    + destruct (devserver_body (docopt_result "devserver" port log_dir config_prod) env config_prod
                  (default "5000" port) fsh (docopt_config_prod "devserver" port log_dir config_prod)
                  (docopt_port "devserver" port log_dir config_prod) Hfsh n (ready log_dir w) Hn)
        as (w' & -> & C).
      exists [app_run_call "0.0.0.0" n]. exact C.
    + destruct (webserver_without_blueprint (docopt_result "devserver" port log_dir config_prod) env config_prod
                  (ready log_dir w) (docopt_config_prod "devserver" port log_dir config_prod) Hfsh) as [-> _].
      exists []. cbn [snd w_calls set_calls]. unfold app_calls.
      now rewrite <- !app_assoc.
  - rewrite (manage_py_runs "tornadoserver" port log_dir config_prod env w
               (tornadoserver (docopt_result "tornadoserver" port log_dir config_prod) env));
      [|in_commands|reflexivity|exact Hrej|exact Hd].
    destruct (app_blueprints (env_create_app env (config_class config_prod) false)
                !! "flask_statics_helper") as [fsh|] eqn:Hfsh.
    + destruct (tornadoserver_body (docopt_result "tornadoserver" port log_dir config_prod) env config_prod
                  (default "5000" port) fsh (docopt_config_prod "tornadoserver" port log_dir config_prod)
                  (docopt_port "tornadoserver" port log_dir config_prod) Hfsh (ready log_dir w))
        as (w' & -> & C).
      eexists. exact C.
    + destruct (webserver_without_blueprint (docopt_result "tornadoserver" port log_dir config_prod) env
                  config_prod (ready log_dir w) (docopt_config_prod "tornadoserver" port log_dir config_prod) Hfsh)
        as [_ ->].
      exists []. cbn [snd w_calls set_calls]. unfold app_calls.
      now rewrite <- !app_assoc.
  - rewrite (manage_py_runs "celerydev" port log_dir config_prod env w
               (celerydev (docopt_result "celerydev" port log_dir config_prod) env));
      [|in_commands|reflexivity|exact Hrej|exact Hd].
    unfold celerydev.
    match goal with
    | |- context [func_body (celery_command ?O ?e ?n ?a) ?w0] =>
        destruct (celery_command_run O e config_prod n a w0 (docopt_config_prod "celerydev" port log_dir config_prod))
          as (w' & -> & C & _)
    end.
    eexists. cbn [snd]. rewrite C. unfold celery_calls. reflexivity.
  - rewrite (manage_py_runs "celerybeat" port log_dir config_prod env w
               (celerybeat (docopt_result "celerybeat" port log_dir config_prod) env));
      [|in_commands|reflexivity|exact Hrej|exact Hd].
    unfold celerybeat.
    match goal with
    | |- context [func_body (celery_command ?O ?e ?n ?a) ?w0] =>
        destruct (celery_command_run O e config_prod n a w0 (docopt_config_prod "celerybeat" port log_dir config_prod))
          as (w' & -> & C & _)
    end.
    eexists. cbn [snd]. rewrite C. unfold celery_calls. reflexivity.
  - rewrite (manage_py_runs "celeryworker" port log_dir config_prod env w
               (celeryworker (docopt_result "celeryworker" port log_dir config_prod) env));
      [|in_commands|reflexivity|exact Hrej|exact Hd].
    unfold celeryworker.
    match goal with
    | |- context [func_body (celery_command ?O ?e ?n ?a) ?w0] =>
        destruct (celery_command_run O e config_prod n a w0 (docopt_config_prod "celeryworker" port log_dir config_prod))
          as (w' & -> & C & _)
    end.
    eexists. cbn [snd]. rewrite C. unfold celery_calls. reflexivity.
  - rewrite (manage_py_runs "shell" port log_dir config_prod env w
               (shell (docopt_result "shell" port log_dir config_prod) env));
      [|in_commands|reflexivity|exact Hrej|exact Hd].
    destruct (shell_run (docopt_result "shell" port log_dir config_prod) env config_prod (ready log_dir w)
                (docopt_config_prod "shell" port log_dir config_prod)) as (w' & -> & C & _).
    eexists. cbn [snd]. rewrite C. unfold shell_calls. reflexivity.
  - rewrite (manage_py_runs "create_all" port log_dir config_prod env w
               (create_all (docopt_result "create_all" port log_dir config_prod) env));
      [|in_commands|reflexivity|exact Hrej|exact Hd].
    destruct (create_all_body (docopt_result "create_all" port log_dir config_prod) env config_prod
                (ready log_dir w) (docopt_config_prod "create_all" port log_dir config_prod)) as (w' & -> & C & _).
    exists [app_context_enter; db_create_all_call; app_context_exit].
    cbn [snd]. rewrite C. reflexivity.
Qed.

Lemma every_command_builds_app_witness :
  exists rest,
    w_calls (snd (manage_py (docopt_result "celeryworker" None None true)
                            sample_env (initial_world sample_fs)))
    = (app_calls true true ++ rest)%list.
Proof.
  apply (every_command_builds_app "celeryworker" None None true sample_env
           (initial_world sample_fs)).
  - in_commands.
  - reflexivity.
  - reflexivity.
Defined.

(** ** Registration in general *)

(** X8: when every decorated name is a key of [OPTIONS], registration
    succeeds and [chosen] ends up as the last decorated function whose
    entry is true; when none is true [chosen] keeps its previous value. *)
Theorem register_keeps_last_selected
    (OPTIONS : gmap string Value) (fs : list Func) (attrs : CommandAttrs) :
  (forall f, In f fs -> is_Some (OPTIONS !! func_name f)) ->
  register OPTIONS fs attrs
  = inr {| chosen := match last (List.filter (selected OPTIONS) fs) with
                     | Some f => Some f
                     | None => chosen attrs
                     end |}.
Proof.
  revert attrs. induction fs as [|f fs IH]; intros attrs Hkeys.
  - destruct attrs. reflexivity.
  - cbn [register List.filter]. unfold command, selected at 1.
    destruct (Hkeys f (or_introl eq_refl)) as [v Hv]. rewrite Hv.
    rewrite IH by (intros g Hg; apply Hkeys; now right).
    destruct (truthy v); [|reflexivity].
    rewrite last_cons. cbn [chosen].
    now destruct (last (List.filter (selected OPTIONS) fs)).
Qed.

Lemma register_keeps_last_selected_witness :
  register two_commands (decorated two_commands sample_env) {| chosen := None |}
  = inr {| chosen := Some (shell two_commands sample_env) |}.
Proof.
  rewrite (register_keeps_last_selected two_commands
             (decorated two_commands sample_env) {| chosen := None |}).
  - reflexivity.
  - intros f Hf. unfold decorated in Hf. cbn [In] in Hf.
    repeat (destruct Hf as [<-|Hf]; [now eexists|]). destruct Hf.
Defined.



(** ** Records outside the severity map, and a second setup *)




(** X11: [setup_logging] adds a handler each time it runs: called twice
    in a process without a log directory, it leaves two console handlers
    and every record of a standard level is printed twice. *)
Theorem setup_logging_twice_duplicates
    (OPTIONS : gmap string Value) (fs : FS) (v : Value) (r : LogRecord)
    (letter : string) :
  OPTIONS !! "--log_dir" = Some v -> truthy v = false ->
  LEVEL_MAP !! levelno r = Some letter ->
  let run := (setup_logging OPTIONS >> setup_logging OPTIONS >> log_record r)
               (initial_world fs) in
  fst run = Ret tt /\
  w_root_handlers (snd run) = [console_handler false; console_handler false] /\
  console_lines (snd run) = [glog_line letter r; glog_line letter r].
Proof.
  intros Hv Ht Hl run. subst run. unfold bind.
  rewrite (setup_logging_falsy OPTIONS (initial_world fs) v Hv Ht).
  rewrite (setup_logging_falsy OPTIONS _ v Hv Ht).
  pose proof (standard_level_ge_DEBUG r letter Hl) as Hge.
  unfold log_record.
  cbn [w_root_level w_root_handlers logging_configured set_root_handlers
       set_root_level initial_world app callHandlers].
  apply Z.leb_le in Hge. rewrite Hge. unfold bind.
  change (h_level (console_handler false)) with logging.DEBUG. rewrite Hge.
  rewrite (emit_standard false r letter _ Hl).
  rewrite (emit_standard false r letter _ Hl).
  repeat split.
Qed.

Lemma setup_logging_twice_duplicates_witness :
  let OPTIONS := docopt_result "devserver" None None false in
  let run := (setup_logging OPTIONS >> setup_logging OPTIONS
              >> log_record (sample_record logging.ERROR))
               (initial_world sample_fs) in
  fst run = Ret tt /\
  w_root_handlers (snd run) = [console_handler false; console_handler false] /\
  console_lines (snd run)
    = ["E0314 01:59:26.535 4242 manage.py:108] Server is running";
       "E0314 01:59:26.535 4242 manage.py:108] Server is running"].
Proof.
  apply (setup_logging_twice_duplicates
           (docopt_result "devserver" None None false) sample_fs VNone
           (sample_record logging.ERROR) "E"); reflexivity.
Defined.

(** ** The console threshold *)

(** X12: after [setup_logging] in a fresh process with an accepted log
    directory flag, a record of a standard level is written to the console
    as one glog line, except that with a log directory the records below
    ERROR are written nowhere; no record is ever written to a file. *)
Theorem console_threshold
    (cmd : string) (port log_dir : option string) (config_prod : bool)
    (fs : FS) (r : LogRecord) (letter : string) :
  log_dir_rejected fs log_dir = false ->
  LEVEL_MAP !! levelno r = Some letter ->
  w_out (snd (setup_then_log (docopt_result cmd port log_dir config_prod) fs r))
  = if log_to_disk log_dir && (levelno r <? logging.ERROR)%Z then []
    else [(Console, glog_line letter r)].
Proof.
  intros Hrej Hl. unfold setup_then_log, bind.
  rewrite setup_logging_docopt. cbn [w_fs initial_world]. rewrite Hrej.
  pose proof (standard_level_ge_DEBUG r letter Hl) as Hge.
  assert (Hc : configured (log_to_disk log_dir)
                 (logging_configured (log_to_disk log_dir) (initial_world fs)))
    by (split; reflexivity).
  destruct (log_to_disk log_dir); cbn [andb].
  - destruct (levelno r <? logging.ERROR)%Z eqn:E.
    + apply Z.ltb_lt in E. now rewrite (log_record_filtered true r _ Hc E).
    + apply Z.ltb_ge in E.
      rewrite (log_record_reaches true r _ Hc Hge E).
      now rewrite (emit_standard true r letter _ Hl).
  - rewrite (log_record_reaches false r _ Hc Hge Hge).
    now rewrite (emit_standard false r letter _ Hl).
Qed.

Lemma console_threshold_witness :
  w_out (snd (setup_then_log
                (docopt_result "celerydev" None (Some "/var/log") false)
                sample_fs (sample_record logging.FATAL)))
  = [(Console, "F0314 01:59:26.535 4242 manage.py:108] Server is running")].
Proof.
  apply (console_threshold "celerydev" None (Some "/var/log") false sample_fs
           (sample_record logging.FATAL) "F"); reflexivity.
Defined.

(** ** A decorated name that docopt does not know *)



